(** * Network latency tester: the record class and the in-memory store

    A shallow embedding of [PROJECT_NETWORK_LAT_TEST/PROJECT_CODE.py]:
    the class [LatencyTestRecord] (a plain object with three attributes)
    and the class [DataStorage] (a Python list of such objects with
    append, read, overwrite, pop and a printing loop).

    Python objects live in a heap and are handled through references, so
    that object identity (what [==] falls back to when a class defines no
    [__eq__]) can be told apart from equality of attributes.  The methods
    of [DataStorage] are written in a small monad that threads the storage
    object, propagates [IndexError], and logs every subscript and every
    printed line.

    The module-level functions ([run_latency_simulation], the unit tests
    of [LatencyTestCase], [main_menu]) run in a second monad over the
    world outside the store: the lines typed, the terminal, the heap,
    the clock and the random generator. *)

From stdpp Require Import base numbers list strings gmap.

Set Default Proof Using "Type".

(** ** Python values *)

(** The naive [datetime.datetime] value: its seven calendar fields. *)
Record datetime := mkDatetime {
  year : Z; month : Z; day : Z;
  hour : Z; minute : Z; second : Z; microsecond : Z
}.

#[global] Instance datetime_eq_dec : EqDecision datetime.
Proof. solve_decision. Defined.

(** Heap addresses of [LatencyTestRecord] instances. *)
Definition loc := nat.

(** The fragment of Python's value universe the program handles: [None],
    [bool], [int], [str], [datetime] and references to record objects. *)
Inductive pyval :=
| PNone
| PBool (b : bool)
| PInt (n : Z)
| PStr (s : string)
| PDatetime (d : datetime)
| PObj (l : loc).

#[global] Instance pyval_eq_dec : EqDecision pyval.
Proof. solve_decision. Defined.

(** Truth value testing ([if v] / [not v]).  [None], [False], zero and the
    empty string are false; a [datetime] is always true, and so is an
    instance of a class with neither [__bool__] nor [__len__]. *)
Definition truthy (v : pyval) : bool :=
  match v with
  | PNone => false
  | PBool b => b
  | PInt n => negb (n =? 0)%Z
  | PStr s => negb (bool_decide (s = ""))
  | PDatetime _ => true
  | PObj _ => true
  end.

(** [bool] is a subclass of [int]: [True == 1], [False == 0]. *)
Definition as_int (v : pyval) : option Z :=
  match v with
  | PBool b => Some (if b then 1 else 0)%Z
  | PInt n => Some n
  | _ => None
  end.

(** The [==] operator.  [LatencyTestRecord] defines no [__eq__], so two
    record objects are compared by [object.__eq__], that is by identity. *)
Definition py_eq (a b : pyval) : bool :=
  match a, b with
  | PNone, PNone => true
  | PStr s, PStr t => bool_decide (s = t)
  | PDatetime d, PDatetime e => bool_decide (d = e)
  | PObj l, PObj m => bool_decide (l = m)
  | _, _ =>
      match as_int a, as_int b with
      | Some x, Some y => (x =? y)%Z
      | _, _ => false
      end
  end.

(** ** colorama's escape sequences *)

(** The escape character, code 27, that opens every ANSI colour code. *)
Definition ESC : Ascii.ascii := Ascii.ascii_of_nat 27.

Module Fore.
Definition RED : string := String ESC "[31m".
Definition GREEN : string := String ESC "[32m".
Definition YELLOW : string := String ESC "[33m".
Definition MAGENTA : string := String ESC "[35m".
Definition CYAN : string := String ESC "[36m".
End Fore.

Module Style.
Definition RESET_ALL : string := String ESC "[0m".
End Style.

(** An evaluated f-string: literal text interleaved with the values of
    its replacement fields, before they are rendered by [format]. *)
Inductive fragment :=
| Lit (s : string)
| Fmt (v : pyval).

Definition fstring := list fragment.

#[global] Instance fragment_eq_dec : EqDecision fragment.
Proof. solve_decision. Defined.

(** ** class LatencyTestRecord *)

Module LatencyTestRecord.

(** The instance attributes set by [__init__]. *)
Record t := mk { source : pyval; latency : pyval; test_time : pyval }.

#[global] Instance record_eq_dec : EqDecision t.
Proof. solve_decision. Defined.

(** [__init__(self, source, latency, test_time=None)].  [now] is the
    reading [datetime.now()] would give; [test_time] is [None] when the
    argument is omitted at the call site. *)
Definition __init__ (now : datetime)
    (source latency : pyval) (test_time : option pyval) : t :=
  let test_time := default PNone test_time in
  {| source := source;
     latency := latency;
     test_time := if truthy test_time then test_time else PDatetime now |}.

(** [__str__]. *)
Definition __str__ (self : t) : fstring :=
  [Lit Fore.CYAN; Lit "Latency for "; Lit Fore.YELLOW; Fmt (source self);
   Lit Fore.CYAN; Lit ": "; Lit Fore.GREEN; Fmt (latency self); Lit "ms";
   Lit Fore.CYAN; Lit ", tested at "; Lit Fore.MAGENTA; Fmt (test_time self);
   Lit Style.RESET_ALL].

End LatencyTestRecord.

(** The heap of record objects. *)
Abbreviation heap := (gmap loc LatencyTestRecord.t).

(** The call [LatencyTestRecord(source, latency, test_time)]: allocate a
    fresh object, run [__init__] on it, return the reference. *)
Definition new_LatencyTestRecord (now : datetime) (h : heap)
    (source latency : pyval) (test_time : option pyval) : loc * heap :=
  let l := fresh (dom h) in
  (l, <[l := LatencyTestRecord.__init__ now source latency test_time]> h).

(** Attribute-for-attribute agreement of two record objects. *)
Definition same_fields (h : heap) (a b : loc) : Prop :=
  match h !! a, h !! b with
  | Some ra, Some rb =>
      LatencyTestRecord.source ra = LatencyTestRecord.source rb ∧
      LatencyTestRecord.latency ra = LatencyTestRecord.latency rb ∧
      LatencyTestRecord.test_time ra = LatencyTestRecord.test_time rb
  | _, _ => False
  end.

(** ** Python's list operations *)

Module PyList.
Section ops.
Context {A : Type}.

Definition len (l : list A) : Z := Z.of_nat (length l).

(** Index normalisation shared by [l[i]], [l[i] = x] and [l.pop(i)]: a
    negative index counts from the end; what is still outside
    [0 .. len l - 1] afterwards raises [IndexError] ([None] here). *)
Definition position (l : list A) (i : Z) : option nat :=
  let j := (if (i <? 0)%Z then i + len l else i)%Z in
  if (0 <=? j)%Z && (j <? len l)%Z then Some (Z.to_nat j) else None.

Definition getitem (l : list A) (i : Z) : option A :=
  j ← position l i; l !! j.

Definition setitem (l : list A) (i : Z) (x : A) : option (list A) :=
  j ← position l i; Some (<[j:=x]> l).

Definition pop (l : list A) (i : Z) : option (A * list A) :=
  j ← position l i; x ← l !! j; Some (x, delete j l).

Definition append (l : list A) (x : A) : list A := l ++ [x].

(** [enumerate(l)]: each element paired with its position, from 0. *)
Definition enumerate (l : list A) : list (Z * A) :=
  imap (λ i x, (Z.of_nat i, x)) l.
End ops.
End PyList.

(** ** The monad of the store's methods *)

Inductive exn := IndexError.

(** What a method does besides returning: subscripting the list (with
    the index as written and the length of the list at that moment) and
    printing a line. *)
Inductive event :=
| Subscript (idx : Z) (size : nat)
| Printed (line : fstring).

Module DataStorage.

(** The instance: its only attribute is the list [self.records], which
    holds references to record objects. *)
Record t := mk { records : list loc }.

#[global] Instance storage_eq_dec : EqDecision t.
Proof. solve_decision. Defined.

Record outcome (A : Type) := Outcome {
  result : exn + A;
  final : t;
  trace : list event
}.
#[global] Arguments Outcome {A} _ _ _.
#[global] Arguments result {A} _.
#[global] Arguments final {A} _.
#[global] Arguments trace {A} _.

Definition M (A : Type) : Type := t → outcome A.

#[global] Instance M_ret : MRet M := λ A a self, Outcome (inr a) self [].

(** Sequencing: an exception stops the method; the log accumulates. *)
#[global] Instance M_bind : MBind M := λ A B k m self,
  let o := m self in
  match result o with
  | inl e => Outcome (inl e) (final o) (trace o)
  | inr a =>
      let o' := k a (final o) in
      Outcome (result o') (final o') (trace o ++ trace o')
  end.

Definition raise {A} (e : exn) : M A := λ self, Outcome (inl e) self [].
Definition emit (ev : event) : M unit := λ self, Outcome (inr tt) self [ev].
Definition read_records : M (list loc) := λ self, Outcome (inr (records self)) self [].
Definition write_records (l : list loc) : M unit := λ _, Outcome (inr tt) (mk l) [].

(** [self.records[idx]] *)
Definition subscript (idx : Z) : M loc :=
  l ← read_records;
  emit (Subscript idx (length l));;
  match PyList.getitem l idx with
  | Some x => mret x
  | None => raise IndexError
  end.

(** [self.records[idx] = x] *)
Definition store_subscript (idx : Z) (x : loc) : M unit :=
  l ← read_records;
  emit (Subscript idx (length l));;
  match PyList.setitem l idx x with
  | Some l' => write_records l'
  | None => raise IndexError
  end.

(** [self.records.pop(idx)] *)
Definition pop (idx : Z) : M loc :=
  l ← read_records;
  emit (Subscript idx (length l));;
  match PyList.pop l idx with
  | Some (x, l') => write_records l';; mret x
  | None => raise IndexError
  end.

(** [print(line)] *)
Definition print (line : fstring) : M unit := emit (Printed line).

(** [for x in xs: body(x)], for a body that leaves [xs] alone. *)
Fixpoint for_each {B} (xs : list B) (body : B → M unit) : M unit :=
  match xs with
  | [] => mret tt
  | x :: xs' => body x;; for_each xs' body
  end.

(** The guard [0 <= idx < len(self.records)]. *)
Definition in_range (idx : Z) (l : list loc) : bool :=
  (0 <=? idx)%Z && (idx <? PyList.len l)%Z.

(** The string returned for an index that is out of range. *)
Definition not_found : string :=
  Fore.RED +:+ "Record not found" +:+ Style.RESET_ALL.

(** [__init__]: [self.records = []]. *)
Definition __init__ : t := mk [].

Definition add_record (record : loc) : M unit :=
  l ← read_records;
  write_records (PyList.append l record).

Definition get_record (idx : Z) : M pyval :=
  l ← read_records;
  if in_range idx l
  then r ← subscript idx; mret (PObj r)
  else mret (PStr not_found).

Definition modify_record (idx : Z) (new_record : loc) : M bool :=
  l ← read_records;
  if in_range idx l
  then store_subscript idx new_record;; mret true
  else mret false.

Definition remove_record (idx : Z) : M bool :=
  l ← read_records;
  if in_range idx l
  then pop idx;; mret true
  else mret false.

Definition no_records_line : fstring :=
  [Lit Fore.RED; Lit "No records available."; Lit Style.RESET_ALL].
Definition heading_line : fstring :=
  [Lit Fore.GREEN; Lit "Displaying all records:"; Lit Style.RESET_ALL].
Definition record_line (idx : Z) (record : loc) : fstring :=
  [Lit Fore.CYAN; Lit "["; Fmt (PInt idx); Lit "] "; Fmt (PObj record)].

Definition display_all : M unit :=
  l ← read_records;
  match l with
  | [] => print no_records_line
  | _ :: _ =>
      print heading_line;;
      for_each (PyList.enumerate l) (λ '(idx, record),
        print (record_line idx record))
  end.

End DataStorage.

(** ** Vocabulary of the statements *)

(** A logged subscript is within the bounds of the list it was applied
    to; printing is not an access. *)
Definition in_bounds (ev : event) : Prop :=
  match ev with
  | Subscript idx size => (0 ≤ idx < Z.of_nat size)%Z
  | Printed _ => True
  end.

(** A method is safe when, from every state of the store, it returns
    normally and every subscript it performed was within bounds. *)
Definition safe {A} (m : DataStorage.M A) : Prop :=
  ∀ self : DataStorage.t,
    (∃ a, DataStorage.result (m self) = inr a) ∧
    Forall in_bounds (DataStorage.trace (m self)).

(** The lines [display_all] prints for the records of a list. *)
Definition printed_records (l : list loc) : list event :=
  (λ p : Z * loc, Printed (DataStorage.record_line p.1 p.2)) <$> PyList.enumerate l.

(** The values a line interpolates, in the order they appear in it. *)
Definition interpolated (line : fstring) : list pyval :=
  omap (λ f, match f with Fmt v => Some v | Lit _ => None end) line.

(** What a reader of the terminal sees listed: from every printed line
    that interpolates exactly an integer and then a record object, that
    index and that record, in the order the lines were printed. *)
Definition listed (tr : list event) : list (Z * loc) :=
  omap (λ ev, match ev with
              | Printed line =>
                  match interpolated line with
                  | [PInt i; PObj r] => Some (i, r)
                  | _ => None
                  end
              | Subscript _ _ => None
              end) tr.

(** ** Sample data *)

Definition noon : datetime := mkDatetime 2024 5 17 12 0 0 0.
Definition dusk : datetime := mkDatetime 2024 5 17 19 30 0 0.

(** Two record objects built one after the other from the same three
    arguments: the references, and the heap holding both. *)
Definition twins : loc * loc * heap :=
  let '(a, h1) :=
    new_LatencyTestRecord dusk ∅ (PStr "New York") (PInt 75) (Some (PDatetime noon)) in
  let '(b, h2) :=
    new_LatencyTestRecord dusk h1 (PStr "New York") (PInt 75) (Some (PDatetime noon)) in
  (a, b, h2).

(** A store of three records. *)
Definition shelf : DataStorage.t := DataStorage.mk [10; 11; 12].

(** ** The program around the store: console, clock, random numbers *)

(** What reaches the terminal: a line written by [print], or the prompt
    written by [input] before it reads. *)
Inductive console :=
| Said (line : fstring)
| Asked (prompt : fstring).

(** The exceptions of the driver: [input] at the end of the input,
    [int] on a string that is no integer, a failed [unittest]
    assertion, and whatever a method of the store raised. *)
Inductive io_exn :=
| EOFError
| ValueError
| AssertionError
| StoreError (e : exn).

(** The state the module-level functions run in: the lines still to be
    typed, the terminal so far, the heap of record objects, the
    [DataStorage] instance in use, and the two outside sources (the
    clock behind [datetime.now()], the generator behind [random]) with
    the number of times each has been consulted. *)
Record world := World {
  stdin : list string;
  stdout : list console;
  objects : heap;
  storage : DataStorage.t;
  clock : nat → datetime;
  clock_reads : nat;
  entropy : nat → Z;
  draws : nat
}.

Definition IO (A : Type) : Type := world → (io_exn + A) * world.

#[global] Instance IO_ret : MRet IO := λ A a w, (inr a, w).

#[global] Instance IO_bind : MBind IO := λ A B k m w,
  match m w with
  | (inl e, w') => (inl e, w')
  | (inr a, w') => k a w'
  end.

Definition raise_io {A} (e : io_exn) : IO A := λ w, (inl e, w).

Definition to_console (c : list console) (w : world) : world :=
  World (stdin w) (stdout w ++ c) (objects w) (storage w)
        (clock w) (clock_reads w) (entropy w) (draws w).

Definition set_stdin (l : list string) (w : world) : world :=
  World l (stdout w) (objects w) (storage w)
        (clock w) (clock_reads w) (entropy w) (draws w).

Definition set_objects (h : heap) (w : world) : world :=
  World (stdin w) (stdout w) h (storage w)
        (clock w) (clock_reads w) (entropy w) (draws w).

Definition set_storage (s : DataStorage.t) (w : world) : world :=
  World (stdin w) (stdout w) (objects w) s
        (clock w) (clock_reads w) (entropy w) (draws w).

Definition tick (w : world) : world :=
  World (stdin w) (stdout w) (objects w) (storage w)
        (clock w) (S (clock_reads w)) (entropy w) (draws w).

Definition drew (w : world) : world :=
  World (stdin w) (stdout w) (objects w) (storage w)
        (clock w) (clock_reads w) (entropy w) (S (draws w)).

(** [print(line)] *)
Definition say (line : fstring) : IO unit := λ w, (inr (), to_console [Said line] w).

(** [input(prompt)]: the prompt is written, then a line is read;
    [EOFError] when there is none. *)
Definition input (prompt : fstring) : IO string := λ w,
  let w := to_console [Asked prompt] w in
  match stdin w with
  | [] => (inl EOFError, w)
  | line :: rest => (inr line, set_stdin rest w)
  end.

(** [datetime.now()] *)
Definition datetime_now : IO datetime := λ w, (inr (clock w (clock_reads w)), tick w).

(** [random.randint(a, b)]: some integer [N] with [a <= N <= b]. *)
Definition randint (a b : Z) : IO Z := λ w,
  (inr (a + entropy w (draws w) `mod` (b - a + 1))%Z, drew w).

(** [time.sleep(secs)]: nothing but the passing of time. *)
Definition sleep (secs : Z) : IO unit := mret ().

(** The expression [LatencyTestRecord(source, latency, test_time)]
    evaluated in the world: the clock is consulted only where [__init__]
    reaches [datetime.now()]. *)
Definition LatencyTestRecord_new (source latency : pyval)
    (test_time : option pyval) : IO loc := λ w,
  let now := clock w (clock_reads w) in
  let '(l, h) := new_LatencyTestRecord now (objects w) source latency test_time in
  (inr l, if truthy (default PNone test_time)
          then set_objects h w else tick (set_objects h w)).

(** The lines a method of the store printed. *)
Definition said (tr : list event) : list console :=
  omap (λ ev, match ev with Printed line => Some (Said line) | Subscript _ _ => None end) tr.

(** A method call on the [DataStorage] instance in use. *)
Definition call {A} (m : DataStorage.M A) : IO A := λ w,
  let o := m (storage w) in
  let w := to_console (said (DataStorage.trace o)) (set_storage (DataStorage.final o) w) in
  match DataStorage.result o with
  | inl e => (inl (StoreError e), w)
  | inr a => (inr a, w)
  end.

(** The attribute [storage.records], read from outside the class. *)
Definition storage_records : IO (list loc) := λ w,
  (inr (DataStorage.records (storage w)), w).

(** [try: body / except ValueError: handler] *)
Definition except_ValueError {A} (body handler : IO A) : IO A := λ w,
  match body w with
  | (inl ValueError, w') => handler w'
  | r => r
  end.

(** The line feed. *)
Definition NL : string := String (Ascii.ascii_of_nat 10) "".

(** ** run_latency_simulation *)

Definition run_latency_simulation (source : pyval) : IO loc :=
  latency ← randint 1 100;
  say [Lit Fore.YELLOW; Lit "Simulating latency for "; Fmt source; Lit "...";
       Lit Style.RESET_ALL];;
  sleep 1;;
  say [Lit Fore.GREEN; Lit "Simulated latency: "; Fmt (PInt latency);
       Lit " ms for "; Fmt source; Lit Style.RESET_ALL];;
  LatencyTestRecord_new source (PInt latency) None.

(** ** class LatencyTestCase *)

Module LatencyTestCase.

(** [setUp]: [self.storage = DataStorage()]. *)
Definition setUp : IO unit := λ w, (inr (), set_storage DataStorage.__init__ w).

(** [assertEqual(first, second)]: fails unless [first == second]. *)
Definition assertEqual (first second : pyval) : IO unit :=
  if py_eq first second then mret () else raise_io AssertionError.

(** [assertTrue(expr)] *)
Definition assertTrue (expr : bool) : IO unit :=
  if expr then mret () else raise_io AssertionError.

Definition test_add_and_get_record : IO unit :=
  test_record ← run_latency_simulation (PStr "New York");
  call (DataStorage.add_record test_record);;
  got ← call (DataStorage.get_record 0);
  assertEqual got (PObj test_record).

Definition test_modify_record : IO unit :=
  first_record ← run_latency_simulation (PStr "New York");
  call (DataStorage.add_record first_record);;
  modified_record ← LatencyTestRecord_new (PStr "New York") (PInt 75) None;
  ok ← call (DataStorage.modify_record 0 modified_record);
  assertTrue ok;;
  got ← call (DataStorage.get_record 0);
  assertEqual got (PObj modified_record).


(** One test as the runner runs it: [setUp], then the method. *)
Definition run_test (test : IO unit) : IO unit := setUp;; test.

End LatencyTestCase.

(** ** print_stylish_header and main_menu *)

Definition rule : string := "========================================".

Definition print_stylish_header : IO unit :=
  say [Lit Fore.CYAN; Lit rule];;
  say [Lit "        "; Lit Fore.YELLOW; Lit "⚡ Network Latency Tester ⚡"];;
  say [Lit Fore.CYAN; Lit rule; Lit Style.RESET_ALL].

(** How an iteration of [while True] ends: by falling through or
    [continue], or by [break]. *)
Inductive control := Continue | Break.

Definition source_prompt : fstring :=
  [Lit Fore.CYAN; Lit "Enter the source location: "; Lit Style.RESET_ALL].

Section menu.
(** Python's [int] on a string: the integer it denotes, or [None] where
    [int] raises [ValueError]. *)
Context (py_int : string → option Z).

(** [int(input(prompt))] *)
Definition int_input (prompt : fstring) : IO Z :=
  line ← input prompt;
  match py_int line with
  | Some n => mret n
  | None => raise_io ValueError
  end.

(** Menu entry 1. *)
Definition add_entry : IO control :=
  source ← input source_prompt;
  test_record ← run_latency_simulation (PStr source);
  call (DataStorage.add_record test_record);;
  say [Lit NL; Lit Fore.GREEN; Lit "Record added: "; Fmt (PObj test_record);
       Lit Style.RESET_ALL];;
  mret Continue.

(** Menu entry 2. *)
Definition measure_entry : IO control :=
  source ← input source_prompt;
  test_record ← run_latency_simulation (PStr source);
  say [Lit NL; Lit Fore.GREEN; Lit "Latency measured: "; Fmt (PObj test_record);
       Lit Style.RESET_ALL];;
  mret Continue.

(** Menu entry 3. *)
Definition update_entry : IO control :=
  records ← storage_records;
  match records with
  | [] =>
      say [Lit Fore.RED; Lit "No records to update. Add a record first.";
           Lit Style.RESET_ALL];;
      mret Continue
  | _ :: _ =>
      except_ValueError
         (idx ← int_input [Lit Fore.CYAN; Lit "Enter the index of the record to update: ";
                           Lit Style.RESET_ALL];
          source ← input source_prompt;
          latency ← int_input [Lit Fore.CYAN; Lit "Enter the new latency (ms): ";
                               Lit Style.RESET_ALL];
          new_record ← LatencyTestRecord_new (PStr source) (PInt latency) None;
          ok ← call (DataStorage.modify_record idx new_record);
          if ok : bool
          then say [Lit Fore.GREEN; Lit "Record at index "; Fmt (PInt idx);
                    Lit " updated successfully."; Lit Style.RESET_ALL]
          else say [Lit Fore.RED; Lit "Error: Invalid index."; Lit Style.RESET_ALL])
         (say [Lit Fore.RED;
               Lit "Error: Invalid input. Please enter numeric values for index and latency.";
               Lit Style.RESET_ALL]);;
      mret Continue
  end.

(** Menu entry 4. *)
Definition delete_entry : IO control :=
  records ← storage_records;
  match records with
  | [] =>
      say [Lit Fore.RED; Lit "No records to delete. Add a record first.";
           Lit Style.RESET_ALL];;
      mret Continue
  | _ :: _ =>
      except_ValueError
         (idx ← int_input [Lit Fore.CYAN; Lit "Enter the index of the record to delete: ";
                           Lit Style.RESET_ALL];
          ok ← call (DataStorage.remove_record idx);
          if ok : bool
          then say [Lit Fore.GREEN; Lit "Record at index "; Fmt (PInt idx);
                    Lit " deleted successfully."; Lit Style.RESET_ALL]
          else say [Lit Fore.RED; Lit "Error: Invalid index."; Lit Style.RESET_ALL])
         (say [Lit Fore.RED; Lit "Error: Invalid input. Please enter a numeric index.";
               Lit Style.RESET_ALL]);;
      mret Continue
  end.

(** Menu entry 5. *)
Definition show_entry : IO control :=
  say [Lit NL; Lit Fore.CYAN; Lit "Displaying all records:"; Lit Style.RESET_ALL];;
  call DataStorage.display_all;;
  mret Continue.

(** Menu entry 6. *)
Definition quit_entry : IO control :=
  say [Lit Fore.CYAN; Lit "Exiting Network Latency Tester. Goodbye!";
       Lit Style.RESET_ALL];;
  mret Break.

Definition unknown_entry : IO control :=
  say [Lit Fore.RED; Lit "Invalid choice. Please choose an option between 1 and 6.";
       Lit Style.RESET_ALL];;
  mret Continue.

(** The [if]/[elif] chain on the line typed at the menu. *)
Definition dispatch (choice : string) : IO control :=
  if bool_decide (choice = "1") then add_entry
  else if bool_decide (choice = "2") then measure_entry
  else if bool_decide (choice = "3") then update_entry
  else if bool_decide (choice = "4") then delete_entry
  else if bool_decide (choice = "5") then show_entry
  else if bool_decide (choice = "6") then quit_entry
  else unknown_entry.

Definition print_menu : IO unit :=
  say [Lit Fore.GREEN; Lit "1. "; Lit Fore.CYAN; Lit "Add new latency record"];;
  say [Lit Fore.GREEN; Lit "2. "; Lit Fore.CYAN; Lit "Measure latency"];;
  say [Lit Fore.GREEN; Lit "3. "; Lit Fore.CYAN; Lit "Update latency record"];;
  say [Lit Fore.GREEN; Lit "4. "; Lit Fore.CYAN; Lit "Delete latency record"];;
  say [Lit Fore.GREEN; Lit "5. "; Lit Fore.CYAN; Lit "Show all records"];;
  say [Lit Fore.GREEN; Lit "6. "; Lit Fore.CYAN; Lit "Quit"];;
  say [Lit Fore.CYAN; Lit rule; Lit Style.RESET_ALL].

(** One pass through the body of [while True]. *)
Definition iteration : IO control :=
  print_stylish_header;;
  print_menu;;
  choice ← input [Lit Fore.YELLOW; Lit "Choose an option (1-6): "; Lit Style.RESET_ALL];
  dispatch choice.

(** [while True], unrolled at most [fuel] times; [None] when that was
    not enough to reach the [break] or an exception. *)
Fixpoint menu_loop (fuel : nat) : IO (option ()) :=
  match fuel with
  | 0 => mret None
  | S fuel =>
      c ← iteration;
      match c with
      | Break => mret (Some ())
      | Continue => menu_loop fuel
      end
  end.

(** [main_menu]: a new, empty [DataStorage], then the loop.  Every pass
    that does not end the program reads at least one line, so one pass
    more than there are lines is all the loop can make. *)
Definition main_menu : IO (option ()) := λ w,
  menu_loop (S (length (stdin w))) (set_storage DataStorage.__init__ w).

End menu.

(** ** A reading of [int] for the examples *)

(** The value of a string of ASCII digits with an optional sign, which
    is what [int] gives on such a string. *)
Definition digit (c : Ascii.ascii) : option Z :=
  let n := Ascii.nat_of_ascii c in
  if (48 <=? n) && (n <=? 57) then Some (Z.of_nat (n - 48)) else None.

Fixpoint digits (acc : Z) (s : string) : option Z :=
  match s with
  | EmptyString => Some acc
  | String c s' => d ← digit c; digits (10 * acc + d)%Z s'
  end.

Definition signed_decimal (s : string) : option Z :=
  match s with
  | EmptyString => None
  | String c s' =>
      if Ascii.nat_of_ascii c =? 45 then
        match s' with EmptyString => None | _ => Z.opp <$> digits 0 s' end
      else if Ascii.nat_of_ascii c =? 43 then
        match s' with EmptyString => None | _ => digits 0 s' end
      else digits 0 s
  end.

(** A session and the outside world it runs in. *)
Definition session (lines : list string) : world :=
  World lines [] ∅ DataStorage.__init__
        (λ n, mkDatetime 2024 5 17 12 0 (Z.of_nat n) 0) 0
        (λ n, 41 + 7 * Z.of_nat n)%Z 0.

(** ** Vocabulary of the statements about the program *)

(** [m], started in [w], ends with a result and a world that [Q] accepts. *)
Definition runs {A} (m : IO A) (w : world) (Q : io_exn + A → world → Prop) : Prop :=
  Q (m w).1 (m w).2.

(** A record object as the program builds them: a string for the
    source, an integer for the latency, a [datetime] for the time. *)
Definition well_typed (o : LatencyTestRecord.t) : Prop :=
  (∃ s, LatencyTestRecord.source o = PStr s) ∧
  (∃ n, LatencyTestRecord.latency o = PInt n) ∧
  (∃ d, LatencyTestRecord.test_time o = PDatetime d).

(** Every reference in the list points to a well-typed record object of
    the heap, and no object is listed twice. *)
Definition sound (h : heap) (l : list loc) : Prop :=
  (∀ r, r ∈ l → ∃ o, h !! r = Some o ∧ well_typed o) ∧ NoDup l.

Definition store_sound (w : world) : Prop :=
  sound (objects w) (DataStorage.records (storage w)).

(** What the program may do to the world between two points of a run:
    read lines from the front of the input, create record objects
    without touching the existing ones, and keep a sound store sound;
    the clock and the generator are what they were. *)
Definition evolves (w w' : world) : Prop :=
  stdin w' `suffix_of` stdin w ∧
  objects w ⊆ objects w' ∧
  (store_sound w → store_sound w') ∧
  clock w' = clock w ∧ entropy w' = entropy w.

(** A world in which the store already holds the two record objects 0
    and 1, with the given lines still to be typed. *)
Definition desk (lines : list string) : world :=
  World lines []
        (<[1 := LatencyTestRecord.mk (PStr "LA") (PInt 49) (PDatetime noon)]>
           (<[0 := LatencyTestRecord.mk (PStr "NYC") (PInt 42) (PDatetime noon)]> ∅))
        (DataStorage.mk [0; 1])
        (λ n, mkDatetime 2024 5 17 12 0 (Z.of_nat n) 0) 0
        (λ n, 41 + 7 * Z.of_nat n)%Z 0.

(** * Properties *)

(** ** Python's list operations inside the bounds *)

Section pylist.
Context {A : Type}.
Implicit Types (l : list A) (i : Z) (x : A).

Lemma position_in_bounds l i :
  (0 ≤ i < PyList.len l)%Z → PyList.position l i = Some (Z.to_nat i).
Proof.
  intros [H0 Hn]. unfold PyList.position.
  destruct (Z.ltb_spec i 0) as [|_]; [lia|].
  destruct (Z.leb_spec 0 i) as [_|]; [|lia].
  destruct (Z.ltb_spec i (PyList.len l)) as [_|]; [done|lia].
Qed.

Lemma position_lt l i j : PyList.position l i = Some j → j < length l.
Proof.
  unfold PyList.position, PyList.len.
  set (k := if (i <? 0)%Z then _ else _).
  destruct (_ && _) eqn:Hc; [|done].
  apply andb_prop in Hc as [?%Z.leb_le ?%Z.ltb_lt].
  intros [= <-]. lia.
Qed.

(** A negative index that is not too negative addresses from the end:
    without a guard, [l[-1]] is the last element. *)
Lemma position_negative l i :
  (- PyList.len l ≤ i < 0)%Z →
  PyList.position l i = Some (Z.to_nat (i + PyList.len l)).
Proof.
  intros [Hlo Hhi]. unfold PyList.position.
  destruct (Z.ltb_spec i 0) as [_|]; [|lia].
  destruct (Z.leb_spec 0 (i + PyList.len l)) as [_|]; [|lia].
  destruct (Z.ltb_spec (i + PyList.len l) (PyList.len l)) as [_|]; [done|lia].
Qed.

Lemma lookup_in_bounds l i :
  (0 ≤ i < PyList.len l)%Z → is_Some (l !! Z.to_nat i).
Proof. unfold PyList.len. intros ?. apply lookup_lt_is_Some. lia. Qed.

Lemma getitem_in_bounds l i :
  (0 ≤ i < PyList.len l)%Z → PyList.getitem l i = l !! Z.to_nat i.
Proof. intros H. unfold PyList.getitem. by rewrite position_in_bounds. Qed.

Lemma setitem_in_bounds l i x :
  (0 ≤ i < PyList.len l)%Z →
  PyList.setitem l i x = Some (<[Z.to_nat i := x]> l).
Proof. intros H. unfold PyList.setitem. by rewrite position_in_bounds. Qed.

Lemma pop_in_bounds l i x :
  (0 ≤ i < PyList.len l)%Z → l !! Z.to_nat i = Some x →
  PyList.pop l i = Some (x, delete (Z.to_nat i) l).
Proof.
  intros H Hx. unfold PyList.pop.
  rewrite position_in_bounds by done. simpl. by rewrite Hx.
Qed.

Lemma enumerate_lookup l (n : nat) (p : Z * A) :
  PyList.enumerate l !! n = Some p ↔ p.1 = Z.of_nat n ∧ l !! n = Some p.2.
Proof.
  unfold PyList.enumerate. rewrite list_lookup_imap.
  destruct p as [j x], (l !! n) as [y|]; simpl.
  - split; [by intros [= <- <-] | by intros [-> [= ->]]].
  - split; [done | by intros [_ ?]].
Qed.

Lemma enumerate_length l : length (PyList.enumerate l) = length l.
Proof. apply length_imap. Qed.
End pylist.

(** ** What each method computes *)

Section methods.
Import DataStorage.
Implicit Types (self : DataStorage.t) (idx : Z) (r : loc).

Lemma in_range_true idx (l : list loc) :
  in_range idx l = true ↔ (0 ≤ idx < PyList.len l)%Z.
Proof.
  unfold in_range. rewrite andb_true_iff, Z.leb_le, Z.ltb_lt. done.
Qed.

Lemma in_range_false idx (l : list loc) :
  in_range idx l = false ↔ ¬ (0 ≤ idx < PyList.len l)%Z.
Proof. rewrite <-in_range_true. destruct (in_range idx l); naive_solver. Qed.

Lemma add_record_run self r :
  add_record r self = Outcome (inr ()) (mk (records self ++ [r])) [].
Proof. done. Qed.

Lemma get_record_hit self idx r :
  (0 ≤ idx < PyList.len (records self))%Z →
  records self !! Z.to_nat idx = Some r →
  get_record idx self =
    Outcome (inr (PObj r)) self [Subscript idx (length (records self))].
Proof.
  intros Hin Hr. destruct self as [l]; simpl in *.
  unfold get_record, subscript, mbind, M_bind; simpl.
  rewrite (proj2 (in_range_true idx l) Hin). simpl.
  by rewrite getitem_in_bounds, Hr.
Qed.

Lemma get_record_miss self idx :
  ¬ (0 ≤ idx < PyList.len (records self))%Z →
  get_record idx self = Outcome (inr (PStr not_found)) self [].
Proof.
  intros Hout. destruct self as [l]; simpl in *.
  unfold get_record, mbind, M_bind; simpl.
  by rewrite (proj2 (in_range_false idx l) Hout).
Qed.

Lemma modify_record_hit self idx r :
  (0 ≤ idx < PyList.len (records self))%Z →
  modify_record idx r self =
    Outcome (inr true) (mk (<[Z.to_nat idx := r]> (records self)))
      [Subscript idx (length (records self))].
Proof.
  intros Hin. destruct self as [l]; simpl in *.
  unfold modify_record, store_subscript, mbind, M_bind; simpl.
  rewrite (proj2 (in_range_true idx l) Hin). simpl.
  by rewrite setitem_in_bounds.
Qed.

Lemma modify_record_miss self idx r :
  ¬ (0 ≤ idx < PyList.len (records self))%Z →
  modify_record idx r self = Outcome (inr false) self [].
Proof.
  intros Hout. destruct self as [l]; simpl in *.
  unfold modify_record, mbind, M_bind; simpl.
  by rewrite (proj2 (in_range_false idx l) Hout).
Qed.

Lemma remove_record_hit self idx :
  (0 ≤ idx < PyList.len (records self))%Z →
  remove_record idx self =
    Outcome (inr true) (mk (delete (Z.to_nat idx) (records self)))
      [Subscript idx (length (records self))].
Proof.
  intros Hin. destruct self as [l]; simpl in *.
  destruct (lookup_in_bounds l idx Hin) as [x Hx].
  unfold remove_record, pop, mbind, M_bind; simpl.
  rewrite (proj2 (in_range_true idx l) Hin). simpl.
  by rewrite (pop_in_bounds l idx x).
Qed.

Lemma remove_record_miss self idx :
  ¬ (0 ≤ idx < PyList.len (records self))%Z →
  remove_record idx self = Outcome (inr false) self [].
Proof.
  intros Hout. destruct self as [l]; simpl in *.
  unfold remove_record, mbind, M_bind; simpl.
  by rewrite (proj2 (in_range_false idx l) Hout).
Qed.

Lemma for_each_ext {B} (xs : list B) (body body' : B → M unit) :
  (∀ x, body x = body' x) → for_each xs body = for_each xs body'.
Proof. intros E. induction xs as [|x xs IH]; [done|]. simpl. by rewrite E, IH. Qed.

Lemma for_each_print {B} (xs : list B) (f : B → fstring) self :
  for_each xs (λ x, print (f x)) self =
    Outcome (inr ()) self ((λ x, Printed (f x)) <$> xs).
Proof.
  induction xs as [|x xs IH]; [done|].
  simpl. unfold mbind, M_bind. simpl. by rewrite IH.
Qed.

Lemma display_all_run self :
  display_all self =
    Outcome (inr ()) self
      (match records self with
       | [] => [Printed no_records_line]
       | _ :: _ => Printed heading_line :: printed_records (records self)
       end).
Proof.
  destruct self as [[|x l]]; [done|].
  unfold display_all, mbind, M_bind. cbn [read_records result final trace records].
  rewrite (for_each_ext _ _ (λ p, print (record_line p.1 p.2))) by (by intros []).
  by rewrite for_each_print.
Qed.
End methods.

(** ** The store *)

Section store.
Import DataStorage.
Implicit Types (self : DataStorage.t) (idx : Z) (r : loc).

(** C1.  [get_record idx] returns the record held at position [idx]
    when [0 <= idx < len(records)]; for any other index it returns the
    not-found string, which is not a record. *)
Theorem get_record_spec self idx :
  ((0 ≤ idx < PyList.len (records self))%Z →
     ∃ r, records self !! Z.to_nat idx = Some r ∧
          result (get_record idx self) = inr (PObj r)) ∧
  (¬ (0 ≤ idx < PyList.len (records self))%Z →
     result (get_record idx self) = inr (PStr not_found) ∧
     ∀ r, result (get_record idx self) ≠ inr (PObj r)).
Proof.
  split.
  - intros Hin. destruct (lookup_in_bounds _ _ Hin) as [r Hr].
    exists r. split; [done|]. by rewrite (get_record_hit self idx r).
  - intros Hout. rewrite get_record_miss by done. simpl.
    split; [done|]. intros r [=].
Qed.

(** C10.  [get_record] never changes the list of records, whatever
    the index. *)
Theorem get_record_pure self idx : final (get_record idx self) = self.
Proof.
  destruct (decide (0 ≤ idx < PyList.len (records self))%Z) as [Hin|Hout].
  - destruct (lookup_in_bounds _ _ Hin) as [r Hr].
    by rewrite (get_record_hit self idx r).
  - by rewrite get_record_miss.
Qed.

(** C4.  [modify_record idx r] on an index in range returns [True] and
    makes [get_record idx] return [r]; on any other index it returns
    [False] and the list of records is what it was. *)
Theorem modify_record_spec self idx r :
  ((0 ≤ idx < PyList.len (records self))%Z →
     result (modify_record idx r self) = inr true ∧
     result (get_record idx (final (modify_record idx r self))) = inr (PObj r)) ∧
  (¬ (0 ≤ idx < PyList.len (records self))%Z →
     result (modify_record idx r self) = inr false ∧
     final (modify_record idx r self) = self).
Proof.
  split.
  - intros Hin. rewrite modify_record_hit by done. cbn [result final]. split; [done|].
    assert (Z.to_nat idx < length (records self))
      by (unfold PyList.len in Hin; lia).
    rewrite (get_record_hit _ idx r); [done| |]; cbn [records].
    + unfold PyList.len in *. by rewrite length_insert.
    + by apply list_lookup_insert_eq.
  - intros Hout. by rewrite modify_record_miss.
Qed.

(** C5.  [remove_record idx] on an index in range returns [True], the
    list is one shorter, the records before [idx] stay where they were
    and those after it move down by one; on any other index it returns
    [False] and the list is what it was. *)
Theorem remove_record_spec self idx :
  ((0 ≤ idx < PyList.len (records self))%Z →
     result (remove_record idx self) = inr true ∧
     S (length (records (final (remove_record idx self)))) = length (records self) ∧
     (∀ j, j < Z.to_nat idx →
        records (final (remove_record idx self)) !! j = records self !! j) ∧
     (∀ j, Z.to_nat idx ≤ j →
        records (final (remove_record idx self)) !! j = records self !! S j) ∧
     (∀ k, (k < idx)%Z →
        result (get_record k (final (remove_record idx self))) =
        result (get_record k self)) ∧
     (∀ k, (idx ≤ k)%Z →
        result (get_record k (final (remove_record idx self))) =
        result (get_record (k + 1) self))) ∧
  (¬ (0 ≤ idx < PyList.len (records self))%Z →
     result (remove_record idx self) = inr false ∧
     final (remove_record idx self) = self).
Proof.
  split; [|intros Hout; by rewrite remove_record_miss].
  intros Hin. rewrite remove_record_hit by done. cbn [result final records].
  pose proof (lookup_in_bounds _ _ Hin) as Hsome.
  pose proof (length_delete _ _ Hsome) as Hlen.
  assert (0 < length (records self))
    by (apply lookup_lt_is_Some in Hsome; lia).
  split_and!.
  - done.
  - lia.
  - intros j Hj. by apply list_lookup_delete_lt.
  - intros j Hj. by apply list_lookup_delete_ge.
  - intros k Hk.
    destruct (decide (0 ≤ k)%Z) as [Hk0|Hk0].
    + assert (Z.to_nat k < Z.to_nat idx) as Hlt by lia.
      pose proof (list_lookup_delete_lt (records self) _ _ Hlt) as E.
      assert (0 ≤ k < PyList.len (records self))%Z as Hk1 by lia.
      destruct (lookup_in_bounds _ _ Hk1) as [x Hx].
      rewrite (get_record_hit self k x) by done.
      rewrite (get_record_hit _ k x); cbn [records result].
      * done.
      * unfold PyList.len in *. lia.
      * by rewrite E.
    + rewrite !get_record_miss; [done| |]; cbn [records]; lia.
  - intros k Hk.
    assert (Z.to_nat idx ≤ Z.to_nat k) as Hle by lia.
    pose proof (list_lookup_delete_ge (records self) _ _ Hle) as E.
    replace (S (Z.to_nat k)) with (Z.to_nat (k + 1)) in E by lia.
    destruct (decide (k + 1 < PyList.len (records self))%Z) as [Hk1|Hk1].
    + assert (0 ≤ k + 1 < PyList.len (records self))%Z as Hk2 by lia.
      destruct (lookup_in_bounds _ _ Hk2) as [x Hx].
      rewrite (get_record_hit self (k + 1) x) by done.
      rewrite (get_record_hit _ k x); cbn [records result].
      * done.
      * unfold PyList.len in *. lia.
      * by rewrite E.
    + rewrite !get_record_miss; [done| |]; cbn [records];
        unfold PyList.len in *; lia.
Qed.
Lemma add_records_run (rs : list loc) self :
  for_each rs add_record self = Outcome (inr ()) (mk (records self ++ rs)) [].
Proof.
  revert self. induction rs as [|x rs IH]; intros [l]; cbn [records].
  - by rewrite app_nil_r.
  - cbn [for_each]. unfold mbind, M_bind. rewrite add_record_run.
    cbn [result final trace records]. rewrite IH. cbn [result final trace records].
    by rewrite <-app_assoc.
Qed.

(** C6.  [add_record r] always returns normally; afterwards the list is
    one longer, [r] is at the last index, the earlier records are where
    they were, and [get_record] gives back at every index the very object
    put there, hence one with the same source, latency and time. *)
Theorem add_record_spec self r :
  result (add_record r self) = inr () ∧
  length (records (final (add_record r self))) = S (length (records self)) ∧
  records (final (add_record r self)) !! length (records self) = Some r ∧
  (∀ i, i < length (records self) →
     records (final (add_record r self)) !! i = records self !! i) ∧
  result (get_record (PyList.len (records self)) (final (add_record r self)))
    = inr (PObj r) ∧
  (∀ idx, (0 ≤ idx < PyList.len (records self))%Z →
     result (get_record idx (final (add_record r self)))
     = result (get_record idx self)) ∧
  (∀ (h : heap) (o : LatencyTestRecord.t), h !! r = Some o →
     ∃ v, result (get_record (PyList.len (records self))
                    (final (add_record r self))) = inr (PObj v) ∧
          h !! v = Some o) ∧
  (∀ (rs : list loc) (i : nat) (x : loc), rs !! i = Some x →
     result (get_record (Z.of_nat i) (final (for_each rs add_record __init__)))
     = inr (PObj x)).
Proof.
  rewrite add_record_run. cbn [result final records].
  assert (result (get_record (PyList.len (records self))
                    (mk (records self ++ [r]))) = inr (PObj r)) as Hlast.
  { rewrite (get_record_hit _ _ r); cbn [records]; [done| |].
    - unfold PyList.len. rewrite length_app. simpl. lia.
    - unfold PyList.len. rewrite Nat2Z.id.
      by rewrite lookup_app_r, Nat.sub_diag. }
  split_and!.
  - done.
  - rewrite length_app. simpl. lia.
  - by rewrite lookup_app_r, Nat.sub_diag.
  - intros i Hi. by apply lookup_app_l.
  - done.
  - intros idx Hin. destruct (lookup_in_bounds _ _ Hin) as [x Hx].
    rewrite (get_record_hit self idx x) by done.
    rewrite (get_record_hit _ idx x); cbn [records result]; [done| |].
    + unfold PyList.len in *. rewrite length_app. lia.
    + rewrite lookup_app_l; [done|]. unfold PyList.len in Hin. lia.
  - intros h o Ho. by exists r.
  - intros rs i x Hx. rewrite add_records_run. cbn [final records __init__ app].
    pose proof (lookup_lt_Some _ _ _ Hx).
    rewrite (get_record_hit _ _ x); cbn [records]; [done| |].
    + unfold PyList.len. lia.
    + by rewrite Nat2Z.id.
Qed.

(** C7.  No method subscripts the list outside [0 <= idx < len]: every
    subscript in a method's log is within the bounds of the list as it
    was at that moment, and no method ends in [IndexError]. *)
Theorem subscripts_in_bounds r idx :
  safe (add_record r) ∧ safe (get_record idx) ∧ safe (modify_record idx r) ∧
  safe (remove_record idx) ∧ safe display_all.
Proof.
  split_and!; intros self.
  - rewrite add_record_run. eauto.
  - destruct (decide (0 ≤ idx < PyList.len (records self))%Z) as [Hin|Hout].
    + destruct (lookup_in_bounds _ _ Hin) as [x Hx].
      rewrite (get_record_hit self idx x) by done. split; [eauto|].
      by apply Forall_singleton.
    + rewrite get_record_miss by done. eauto.
  - destruct (decide (0 ≤ idx < PyList.len (records self))%Z) as [Hin|Hout].
    + rewrite modify_record_hit by done. split; [eauto|].
      by apply Forall_singleton.
    + rewrite modify_record_miss by done. eauto.
  - destruct (decide (0 ≤ idx < PyList.len (records self))%Z) as [Hin|Hout].
    + rewrite remove_record_hit by done. split; [eauto|].
      by apply Forall_singleton.
    + rewrite remove_record_miss by done. eauto.
  - rewrite display_all_run. split; [eauto|]. cbn [trace].
    destruct (records self) as [|x l].
    + by apply Forall_singleton.
    + apply Forall_cons. split; [done|].
      unfold printed_records. by apply Forall_fmap, Forall_true.
Qed.

Lemma listed_record_lines (ps : list (Z * loc)) :
  listed ((λ p : Z * loc, Printed (record_line p.1 p.2)) <$> ps) = ps.
Proof.
  induction ps as [|[i r] ps IH]; [done|].
  rewrite fmap_cons. unfold listed in *. cbn [omap list_omap].
  change (interpolated (record_line (i, r).1 (i, r).2)) with [PInt i; PObj r].
  by rewrite IH.
Qed.

(** C8.  [display_all] prints, for a list that is not empty, a heading
    and then one line per record, in the order of the list, each made of
    the record's current index in brackets followed by the record; for
    the empty list it prints the single no-records line instead, which
    no other list produces.  Read back from the terminal, the indices
    and records listed are exactly the records of the store, each with
    its position. *)
Theorem display_all_spec self :
  result (display_all self) = inr () ∧
  final (display_all self) = self ∧
  (records self = [] →
     trace (display_all self) =
       [Printed [Lit Fore.RED; Lit "No records available.";
                 Lit Style.RESET_ALL]]) ∧
  (records self ≠ [] →
     trace (display_all self) =
       Printed [Lit Fore.GREEN; Lit "Displaying all records:";
                Lit Style.RESET_ALL] ::
         ((λ p : Z * loc,
             Printed [Lit Fore.CYAN; Lit "["; Fmt (PInt p.1); Lit "] ";
                      Fmt (PObj p.2)]) <$>
            PyList.enumerate (records self))) ∧
  listed (trace (display_all self)) = PyList.enumerate (records self) ∧
  (∀ (n : nat) (i : Z) (r : loc),
     listed (trace (display_all self)) !! n = Some (i, r) ↔
     i = Z.of_nat n ∧ records self !! n = Some r) ∧
  length (PyList.enumerate (records self)) = length (records self) ∧
  (∀ (n : nat) (p : Z * loc),
     PyList.enumerate (records self) !! n = Some p ↔
     p.1 = Z.of_nat n ∧ records self !! n = Some p.2) ∧
  (∀ self', records self = [] → records self' ≠ [] →
     trace (display_all self) ≠ trace (display_all self')).
Proof.
  assert (listed (trace (display_all self)) = PyList.enumerate (records self))
    as Hlisted.
  { rewrite display_all_run. cbn [trace].
    destruct (records self) as [|x l]; [done|].
    unfold printed_records.
    change (listed (Printed heading_line :: ?t)) with (listed t).
    apply listed_record_lines. }
  rewrite Hlisted. rewrite display_all_run. cbn [result final trace].
  split_and!; try done.
  - by intros ->.
  - by destruct (records self).
  - intros n i r. apply (enumerate_lookup (records self) n (i, r)).
  - apply enumerate_length.
  - apply enumerate_lookup.
  - intros self' -> Hne. rewrite display_all_run. cbn [trace].
    destruct (records self'); [done|]. intros [=].
Qed.

(** C9.  A negative index is stopped by the guard [0 <= idx]:
    [get_record] returns the not-found string, [modify_record] and
    [remove_record] return [False], the list is left as it was, and the
    list is not subscripted at all. *)
Theorem negative_index_rejected self idx r :
  (idx < 0)%Z →
  get_record idx self = Outcome (inr (PStr not_found)) self [] ∧
  modify_record idx r self = Outcome (inr false) self [] ∧
  remove_record idx self = Outcome (inr false) self [].
Proof.
  intros Hneg.
  rewrite get_record_miss, modify_record_miss, remove_record_miss by lia.
  done.
Qed.

(** What the guard keeps from happening: the bare subscript with a
    negative index reads from the end of the list. *)
Lemma subscript_negative_wraps self idx x :
  (- PyList.len (records self) ≤ idx < 0)%Z →
  records self !! Z.to_nat (idx + PyList.len (records self)) = Some x →
  result (subscript idx self) = inr x.
Proof.
  intros Hin Hx. destruct self as [l]; cbn [records] in *.
  unfold subscript, mbind, M_bind. cbn [read_records emit result final trace records].
  unfold PyList.getitem. rewrite position_negative by done. simpl.
  by rewrite Hx.
Qed.
End store.

(** ** Records *)

Section records.
Implicit Types (h : heap) (a b : loc) (now : datetime) (t : pyval).

Lemma same_fields_refl h a : is_Some (h !! a) → same_fields h a a.
Proof. intros [o Ho]. unfold same_fields. by rewrite Ho. Qed.

(** Fails as first stated (C2): two record objects with equal source,
    latency and time that do not compare equal. *)
Lemma twins_unequal :
  ¬ (py_eq (PObj twins.1.1) (PObj twins.1.2) = true ↔
     same_fields twins.2 twins.1.1 twins.1.2).
Proof.
  intros [_ Heq].
  assert (same_fields twins.2 twins.1.1 twins.1.2) as Hsame by (by vm_compute).
  apply Heq in Hsame. vm_compute in Hsame. discriminate.
Qed.

(** C2, amended.  Two records compare equal exactly when they are one
    and the same object; records that compare equal therefore agree on
    source, latency and time, but agreeing on those does not make two
    objects equal. *)
Theorem record_eq_is_identity h a b :
  (py_eq (PObj a) (PObj b) = true ↔ a = b) ∧
  (is_Some (h !! a) → py_eq (PObj a) (PObj b) = true → same_fields h a b).
Proof.
  assert (py_eq (PObj a) (PObj b) = true ↔ a = b) as Hid.
  { unfold py_eq. by rewrite bool_decide_eq_true. }
  split; [done|]. intros Ha ->%Hid. by apply same_fields_refl.
Qed.

Lemma init_source_latency now (source latency : pyval) (arg : option pyval) :
  LatencyTestRecord.source (LatencyTestRecord.__init__ now source latency arg) = source ∧
  LatencyTestRecord.latency (LatencyTestRecord.__init__ now source latency arg) = latency.
Proof. done. Qed.

Lemma init_time_omitted now (source latency : pyval) :
  LatencyTestRecord.test_time (LatencyTestRecord.__init__ now source latency None)
  = PDatetime now.
Proof. done. Qed.

Lemma init_time_truthy now (source latency : pyval) t :
  truthy t = true →
  LatencyTestRecord.test_time (LatencyTestRecord.__init__ now source latency (Some t)) = t.
Proof. intros Ht. unfold LatencyTestRecord.__init__. simpl. by rewrite Ht. Qed.

Lemma init_time_falsy now (source latency : pyval) t :
  truthy t = false →
  LatencyTestRecord.test_time (LatencyTestRecord.__init__ now source latency (Some t))
  = PDatetime now.
Proof. intros Ht. unfold LatencyTestRecord.__init__. simpl. by rewrite Ht. Qed.

(** C3 does not hold of [__init__]: a time that is supplied but tests
    false, such as the integer 0, is dropped and the clock reading is
    stored in its place. *)
Theorem init_time_zero_dropped now (source latency : pyval) :
  LatencyTestRecord.test_time
    (LatencyTestRecord.__init__ now source latency (Some (PInt 0)))
  = PDatetime now ∧
  LatencyTestRecord.test_time
    (LatencyTestRecord.__init__ now source latency (Some (PInt 0)))
  ≠ PInt 0.
Proof. rewrite init_time_falsy by done. split; [done|]. intros [=]. Qed.

Lemma new_record_fresh now h (source latency : pyval) (arg : option pyval) :
  h !! (new_LatencyTestRecord now h source latency arg).1 = None.
Proof.
  unfold new_LatencyTestRecord. cbn [fst].
  apply not_elem_of_dom, is_fresh.
Qed.

Lemma new_record_lookup now h (source latency : pyval) (arg : option pyval) :
  (new_LatencyTestRecord now h source latency arg).2
    !! (new_LatencyTestRecord now h source latency arg).1
  = Some (LatencyTestRecord.__init__ now source latency arg).
Proof. unfold new_LatencyTestRecord. cbn [fst snd]. apply lookup_insert_eq. Qed.
End records.

(** ** The repository's unit tests, read against the model *)

Section unit_tests.
Import DataStorage.

(** The string [get_record] returns carries the colour codes, so it is
    not the bare text that [test_remove_record] compares it with. *)
Lemma not_found_coloured : py_eq (PStr not_found) (PStr "Record not found") = false.
Proof. by vm_compute. Qed.
End unit_tests.

(** ** The statements at concrete inputs *)

Section examples.
Import DataStorage.

Local Ltac bounds := unfold shelf, PyList.len; simpl; lia.

(** [get_record] on the three-record store: index 1 is in range, index 3
    is one past the end. *)
Lemma get_record_spec_witness :
  result (get_record 1 shelf) = inr (PObj 11) ∧
  result (get_record 3 shelf) = inr (PStr not_found).
Proof.
  split.
  - destruct (proj1 (get_record_spec shelf 1)) as (r & Hr & ->).
    + bounds.
    + cbn in Hr. by injection Hr as ->.
  - apply (proj2 (get_record_spec shelf 3)). bounds.
Defined.

(** [modify_record] at the last index, and one past it. *)
Lemma modify_record_spec_witness :
  result (get_record 2 (final (modify_record 2 99 shelf))) = inr (PObj 99) ∧
  final (modify_record 3 99 shelf) = shelf.
Proof.
  split.
  - apply (proj1 (modify_record_spec shelf 2 99)). bounds.
  - apply (proj2 (modify_record_spec shelf 3 99)). bounds.
Defined.

(** [remove_record] at the first index, and at index -1. *)
Lemma remove_record_spec_witness :
  S (length (records (final (remove_record 0 shelf)))) = 3 ∧
  final (remove_record (-1) shelf) = shelf.
Proof.
  split.
  - apply (proj1 (remove_record_spec shelf 0)). bounds.
  - apply (proj2 (remove_record_spec shelf (-1))). bounds.
Defined.

(** Index -1 on the three-record store. *)
Lemma negative_index_rejected_witness :
  (-1 < 0)%Z ∧
  get_record (-1) shelf = Outcome (inr (PStr not_found)) shelf [] ∧
  modify_record (-1) 99 shelf = Outcome (inr false) shelf [] ∧
  remove_record (-1) shelf = Outcome (inr false) shelf [].
Proof. split; [lia|]. apply (negative_index_rejected shelf (-1) 99). lia. Defined.

(** Without the guard the same index would have read the last record. *)
Example subscript_minus_one : result (subscript (-1) shelf) = inr 12.
Proof. reflexivity. Qed.
End examples.
Ltac world_simpl :=
  cbn [stdin stdout objects storage clock clock_reads entropy draws
       to_console set_stdin set_objects set_storage tick drew fst snd].

Section io_logic.
Context {A B : Type}.
Implicit Types (w : world).

Lemma runs_ret (a : A) w Q : Q (inr a) w → runs (mret a) w Q.
Proof. done. Qed.

Lemma runs_raise (e : io_exn) w (Q : io_exn + A → world → Prop) :
  Q (inl e) w → runs (raise_io e) w Q.
Proof. done. Qed.

Lemma runs_bind (m : IO A) (k : A → IO B) w Q :
  runs m w (λ r w', match r with
                    | inl e => Q (inl e) w'
                    | inr a => runs (k a) w' Q
                    end) →
  runs (m ≫= k) w Q.
Proof.
  unfold runs, mbind, IO_bind. destruct (m w) as [[e|a] w']; simpl; done.
Qed.

Lemma runs_except (body handler : IO A) w Q :
  runs body w (λ r w', match r with
                       | inl ValueError => runs handler w' Q
                       | _ => Q r w'
                       end) →
  runs (except_ValueError body handler) w Q.
Proof.
  unfold runs, except_ValueError.
  destruct (body w) as [[[]|a] w']; simpl; done.
Qed.

Lemma runs_call (m : DataStorage.M A) w Q :
  Q (match DataStorage.result (m (storage w)) with
     | inl e => inl (StoreError e)
     | inr a => inr a
     end)
    (to_console (said (DataStorage.trace (m (storage w))))
       (set_storage (DataStorage.final (m (storage w))) w)) →
  runs (call m) w Q.
Proof. unfold runs, call. simpl. by destruct (DataStorage.result _). Qed.
End io_logic.

Section io_primitives.
Implicit Types (w : world).

Lemma runs_storage_records w Q :
  Q (inr (DataStorage.records (storage w))) w → runs storage_records w Q.
Proof. done. Qed.

Lemma runs_say line w Q : Q (inr ()) (to_console [Said line] w) → runs (say line) w Q.
Proof. done. Qed.

Lemma runs_input prompt w Q :
  match stdin w with
  | [] => Q (inl EOFError) (to_console [Asked prompt] w)
  | line :: rest => Q (inr line) (set_stdin rest (to_console [Asked prompt] w))
  end →
  runs (input prompt) w Q.
Proof. unfold runs, input. simpl. by destruct (stdin w). Qed.

Lemma runs_randint a b w Q :
  (∀ n, (a ≤ b → a ≤ n ≤ b)%Z → n = (a + entropy w (draws w) `mod` (b - a + 1))%Z → Q (inr n) (drew w)) →
  runs (randint a b) w Q.
Proof.
  intros H. apply H; [|done]. intros Hab.
  pose proof (Z.mod_pos_bound (entropy w (draws w)) (b - a + 1)). lia.
Qed.

Lemma runs_new source latency w Q :
  Q (inr (fresh (dom (objects w))))
    (tick (set_objects
       (<[fresh (dom (objects w)) :=
            LatencyTestRecord.mk source latency (PDatetime (clock w (clock_reads w)))]>
          (objects w)) w)) →
  runs (LatencyTestRecord_new source latency None) w Q.
Proof. done. Qed.
End io_primitives.

(** ** How the methods of the store compose *)

Section store_algebra.
Import DataStorage.
Implicit Types (self : DataStorage.t) (idx : Z) (r : loc).

(** X1.  [modify_record] touches one position only: whatever the index,
    the list keeps its length, and [get_record] at every other index
    returns what it returned before. *)
Theorem modify_record_frame self idx r (k : Z) :
  length (records (final (modify_record idx r self))) = length (records self) ∧
  (k ≠ idx →
   result (get_record k (final (modify_record idx r self))) =
   result (get_record k self)).
Proof.
  destruct (decide (0 ≤ idx < PyList.len (records self))%Z) as [Hin|Hout];
    [|by rewrite modify_record_miss].
  rewrite modify_record_hit by done. cbn [final records].
  split; [by rewrite length_insert|]. intros Hk.
  destruct (decide (0 ≤ k < PyList.len (records self))%Z) as [Hkin|Hkout].
  - destruct (lookup_in_bounds _ _ Hkin) as [x Hx].
    rewrite (get_record_hit self k x) by done.
    rewrite (get_record_hit _ k x); cbn [records result]; [done| |].
    + unfold PyList.len in *. by rewrite length_insert.
    + rewrite list_lookup_insert_ne; [done|]. lia.
  - rewrite !get_record_miss; [done|done|]. cbn [records].
    unfold PyList.len in *. by rewrite length_insert.
Qed.

(** X2.  Removing the record just added, at the index it was added at,
    gives back the store as it was: [remove_record] returns [True] and
    the list is the list before [add_record]. *)
Theorem add_then_remove_last self r :
  result (remove_record (PyList.len (records self)) (final (add_record r self)))
    = inr true ∧
  final (remove_record (PyList.len (records self)) (final (add_record r self)))
    = self.
Proof.
  rewrite add_record_run. cbn [final].
  rewrite remove_record_hit; cbn [records result final].
  - split; [done|]. unfold PyList.len. rewrite Nat2Z.id.
    rewrite (delete_middle (records self) [] r), app_nil_r.
    by destruct self.
  - unfold PyList.len. rewrite length_app. simpl. lia.
Qed.

(** X3.  Of two [modify_record] calls at the same index the second
    wins: the store ends as if only the second had been made, and both
    calls return the same truth value. *)
Theorem modify_record_twice self idx r1 r2 :
  final (modify_record idx r2 (final (modify_record idx r1 self)))
    = final (modify_record idx r2 self) ∧
  result (modify_record idx r2 (final (modify_record idx r1 self)))
    = result (modify_record idx r1 self).
Proof.
  destruct (decide (0 ≤ idx < PyList.len (records self))%Z) as [Hin|Hout].
  - rewrite (modify_record_hit self idx r1), (modify_record_hit self idx r2) by done.
    cbn [final result]. rewrite modify_record_hit; cbn [records final result].
    + by rewrite list_insert_insert_eq.
    + unfold PyList.len in *. by rewrite length_insert.
  - rewrite (modify_record_miss self idx r1), (modify_record_miss self idx r2) by done.
    cbn [final result]. by rewrite modify_record_miss.
Qed.

(** X4.  A new [DataStorage] holds nothing: at every index [get_record]
    returns the not-found string and [modify_record] and [remove_record]
    return [False] and leave it empty, and [display_all] prints the
    no-records line alone. *)
Theorem new_storage_is_empty idx r :
  result (get_record idx __init__) = inr (PStr not_found) ∧
  modify_record idx r __init__ = Outcome (inr false) __init__ [] ∧
  remove_record idx __init__ = Outcome (inr false) __init__ [] ∧
  trace (display_all __init__) = [Printed no_records_line].
Proof.
  assert (¬ (0 ≤ idx < PyList.len (records __init__))%Z) as Hout
    by (unfold PyList.len; simpl; lia).
  rewrite get_record_miss, modify_record_miss, remove_record_miss by done.
  done.
Qed.

End store_algebra.

(** ** Building records and simulating a measurement *)

Section simulation.
Implicit Types (w : world) (source : pyval).

(** X5.  However it is called, [__init__] leaves a time that tests
    true in the record: the argument itself when one was given that
    tests true, and the clock reading in every other case. *)
Theorem init_time_never_false (now : datetime) (source latency : pyval)
    (arg : option pyval) :
  let o := LatencyTestRecord.__init__ now source latency arg in
  truthy (LatencyTestRecord.test_time o) = true ∧
  (arg = Some (LatencyTestRecord.test_time o) ∧ truthy (default PNone arg) = true ∨
   LatencyTestRecord.test_time o = PDatetime now ∧ truthy (default PNone arg) = false).
Proof.
  intros o. subst o. unfold LatencyTestRecord.__init__.
  destruct arg as [t|]; simpl.
  - destruct (truthy t) eqn:Ht; simpl; rewrite ?Ht; split; auto.
  - split; auto.
Qed.

Lemma runs_simulation source w Q :
  (∀ n, (1 ≤ n ≤ 100)%Z →
     Q (inr (fresh (dom (objects w))))
       (tick (set_objects
          (<[fresh (dom (objects w)) :=
               LatencyTestRecord.mk source (PInt n)
                 (PDatetime (clock w (clock_reads w)))]> (objects w))
          (to_console
             [Said [Lit Fore.GREEN; Lit "Simulated latency: "; Fmt (PInt n);
                    Lit " ms for "; Fmt source; Lit Style.RESET_ALL]]
             (to_console
                [Said [Lit Fore.YELLOW; Lit "Simulating latency for "; Fmt source;
                       Lit "..."; Lit Style.RESET_ALL]]
                (drew w)))))) →
  runs (run_latency_simulation source) w Q.
Proof.
  intros HQ. unfold run_latency_simulation.
  apply runs_bind, runs_randint. intros n Hn _.
  apply runs_bind, runs_say, runs_bind, runs_ret, runs_bind, runs_say, runs_new.
  world_simpl. apply HQ. lia.
Qed.

(** X6.  [run_latency_simulation] always returns a new record object:
    one that was not there before, whose source is the argument, whose
    latency is an integer from 1 to 100 and whose time is the clock
    reading.  It prints two lines, reads no input, consults the clock
    and the generator once each, and leaves the store and every
    existing record as they were. *)
Theorem run_latency_simulation_spec source w :
  runs (run_latency_simulation source) w (λ r w',
    ∃ (l : loc) (n : Z),
      r = inr l ∧ (1 ≤ n ≤ 100)%Z ∧
      objects w !! l = None ∧
      objects w' !! l =
        Some (LatencyTestRecord.mk source (PInt n)
                (PDatetime (clock w (clock_reads w)))) ∧
      (∀ l', l' ≠ l → objects w' !! l' = objects w !! l') ∧
      stdout w' = stdout w ++
        [Said [Lit Fore.YELLOW; Lit "Simulating latency for "; Fmt source;
               Lit "..."; Lit Style.RESET_ALL];
         Said [Lit Fore.GREEN; Lit "Simulated latency: "; Fmt (PInt n);
               Lit " ms for "; Fmt source; Lit Style.RESET_ALL]] ∧
      stdin w' = stdin w ∧ storage w' = storage w ∧
      clock_reads w' = S (clock_reads w) ∧ draws w' = S (draws w)).
Proof.
  apply runs_simulation.
  intros n Hn. exists (fresh (dom (objects w))), n. world_simpl.
  split_and!; try done; try lia.
  - apply not_elem_of_dom, is_fresh.
  - apply lookup_insert_eq.
  - intros l' Hl'. by apply lookup_insert_ne.
  - by rewrite <-app_assoc.
Qed.
End simulation.

Ltac io_step :=
  world_simpl;
  lazymatch goal with
  | |- runs (mbind _ _) _ _ => apply runs_bind
  | |- runs (mret _) _ _ => apply runs_ret
  | |- runs (raise_io _) _ _ => apply runs_raise
  | |- runs (say _) _ _ => apply runs_say
  | |- runs (input _) _ _ => apply runs_input
  | |- runs (sleep _) _ _ => apply runs_ret
  | |- runs (call _) _ _ => apply runs_call
  | |- runs storage_records _ _ => apply runs_storage_records
  | |- runs (LatencyTestRecord_new _ _ None) _ _ => apply runs_new
  | |- runs (run_latency_simulation _) _ _ => apply runs_simulation; intros ? ?
  | |- runs (except_ValueError _ _) _ _ => apply runs_except
  end; world_simpl.


(** ** The unit tests *)

Section unit_test_runs.
Import DataStorage LatencyTestCase.
Implicit Types (w : world).

Lemma runs_setUp w Q : Q (inr ()) (set_storage __init__ w) → runs setUp w Q.
Proof. done. Qed.

Lemma runs_assertEqual_same (v : loc) w Q :
  Q (inr ()) w → runs (assertEqual (PObj v) (PObj v)) w Q.
Proof.
  intros HQ. unfold assertEqual, py_eq. by rewrite bool_decide_eq_true_2.
Qed.

Lemma insert_first (x y : loc) : <[Z.to_nat 0 := x]> [y] = [x].
Proof. done. Qed.

Lemma get_first (x : loc) :
  get_record 0 (mk [x]) = Outcome (inr (PObj x)) (mk [x]) [Subscript 0 1].
Proof. done. Qed.

(** X7.  [test_add_and_get_record] passes whatever the generator and
    the clock give: the object read back at index 0 is the object
    added. *)
Theorem test_add_and_get_record_passes w :
  runs (run_test test_add_and_get_record) w (λ r w',
    r = inr () ∧ ∃ x, records (storage w') = [x]).
Proof.
  unfold run_test, test_add_and_get_record.
  apply runs_bind, runs_setUp. world_simpl.
  do 2 io_step. do 2 io_step. rewrite add_record_run.
  cbn [result final trace records __init__ app said omap list_omap].
  world_simpl. do 2 io_step. rewrite get_first. cbn [result final trace].
  world_simpl. apply runs_assertEqual_same. world_simpl. eauto.
Qed.

(** X8.  [test_modify_record] passes: [modify_record(0, ...)] returns
    [True] and the object read back is the replacement. *)
Theorem test_modify_record_passes w :
  runs (run_test test_modify_record) w (λ r w',
    r = inr () ∧ ∃ x, records (storage w') = [x]).
Proof.
  unfold run_test, test_modify_record.
  apply runs_bind, runs_setUp. world_simpl.
  do 2 io_step. do 2 io_step. rewrite add_record_run.
  cbn [result final trace records __init__ app said omap list_omap].
  world_simpl. do 2 io_step. do 2 io_step.
  rewrite modify_record_hit by (unfold PyList.len; simpl; lia).
  cbn [result final trace records Z.to_nat]. world_simpl.
  io_step. unfold assertTrue at 1. io_step. io_step. io_step.
  rewrite insert_first, get_first. cbn [result final trace].
  world_simpl. apply runs_assertEqual_same. world_simpl.
  eauto.
Qed.

End unit_test_runs.

(** ** The menu: rules for its parts *)

Section sound_lists.
Implicit Types (h : heap) (l : list loc) (o : LatencyTestRecord.t).

Lemma fresh_not_listed h l : sound h l → fresh (dom h) ∉ l.
Proof.
  intros [Hlive _] Hin. destruct (Hlive _ Hin) as (o & Ho & _).
  apply (is_fresh (dom h)). apply elem_of_dom. eauto.
Qed.

Lemma lookup_alloc_other h l o r :
  sound h l → r ∈ l → <[fresh (dom h) := o]> h !! r = h !! r.
Proof.
  intros Hs Hr. apply lookup_insert_ne. intros <-.
  by apply (fresh_not_listed h l).
Qed.

Lemma sound_alloc h l o : sound h l → sound (<[fresh (dom h) := o]> h) l.
Proof.
  intros Hs. split; [|apply Hs]. intros r Hr.
  rewrite (lookup_alloc_other h l) by done. by apply Hs.
Qed.

Lemma sound_add h l o :
  sound h l → well_typed o →
  sound (<[fresh (dom h) := o]> h) (l ++ [fresh (dom h)]).
Proof.
  intros Hs Ho. split.
  - intros r [Hr|Hr%list_elem_of_singleton]%elem_of_app.
    + rewrite (lookup_alloc_other h l) by done. by apply Hs.
    + subst r. exists o. by rewrite lookup_insert_eq.
  - apply NoDup_app. split_and!; [apply Hs| |apply NoDup_singleton].
    intros x Hx ->%list_elem_of_singleton. by apply (fresh_not_listed h l).
Qed.

Lemma sound_remove h l (i : nat) : sound h l → sound h (delete i l).
Proof.
  intros [Hlive Hnd]. split.
  - intros r Hr. apply Hlive. by eapply list_elem_of_delete_inv.
  - eapply sublist_NoDup; [done|apply sublist_delete].
Qed.

Lemma sound_modify h l (i : nat) o :
  sound h l → well_typed o →
  sound (<[fresh (dom h) := o]> h) (<[i := fresh (dom h)]> l).
Proof.
  intros Hs Ho. destruct (l !! i) as [y|] eqn:Hy.
  - pose proof (fresh_not_listed h l Hs) as Hf.
    pose proof (lookup_lt_Some _ _ _ Hy) as Hi.
    assert (∀ x, x ∈ take i l → x ∈ l) as Htake
      by (intros x Hx; eapply elem_of_sublist; [done|apply sublist_take]).
    assert (∀ x, x ∈ drop (S i) l → x ∈ l) as Hdrop
      by (intros x Hx; eapply elem_of_sublist; [done|apply sublist_drop]).
    rewrite insert_take_drop by done. split.
    + intros r [Hr|[->|Hr]%elem_of_cons]%elem_of_app.
      * rewrite (lookup_alloc_other h l) by auto. apply Hs. auto.
      * exists o. by rewrite lookup_insert_eq.
      * rewrite (lookup_alloc_other h l) by auto. apply Hs. auto.
    + destruct Hs as [_ Hnd]. rewrite <-(take_drop_middle l i y Hy) in Hnd.
      apply NoDup_app in Hnd as (Ha & Hab & [Hyb Hb]%NoDup_cons).
      apply NoDup_app. split_and!; [done| |].
      * intros x Hx [->|Hxb]%elem_of_cons; [by apply Hf, Htake|].
        apply (Hab x Hx). by right.
      * apply NoDup_cons. split; [|done]. intros Hin. by apply Hf, Hdrop.
  - rewrite list_insert_ge by (by apply lookup_ge_None). by apply sound_alloc.
Qed.
End sound_lists.

Section menu_rules.
Context (py_int : string → option Z).
Implicit Types (w : world).

Lemma to_console_app (c1 c2 : list console) w :
  to_console c2 (to_console c1 w) = to_console (c1 ++ c2) w.
Proof. unfold to_console. simpl. by rewrite app_assoc. Qed.

Lemma runs_int_input prompt w Q :
  match stdin w with
  | [] => Q (inl EOFError) (to_console [Asked prompt] w)
  | line :: rest =>
      match py_int line with
      | Some n => Q (inr n) (set_stdin rest (to_console [Asked prompt] w))
      | None => Q (inl ValueError) (set_stdin rest (to_console [Asked prompt] w))
      end
  end →
  runs (int_input py_int prompt) w Q.
Proof.
  intros HQ. unfold int_input. apply runs_bind, runs_input.
  destruct (stdin w) as [|line rest]; [done|].
  destruct (py_int line); [by apply runs_ret|by apply runs_raise].
Qed.

(** A pass of the loop writes the header, the menu and the prompt, then
    reads the choice. *)
Lemma runs_iteration w Q :
  (∀ out,
     match stdin w with
     | [] => Q (inl EOFError) (to_console out w)
     | choice :: rest =>
         runs (dispatch py_int choice) (set_stdin rest (to_console out w)) Q
     end) →
  runs (iteration py_int) w Q.
Proof.
  intros HQ. unfold iteration, print_stylish_header, print_menu.
  repeat (io_step; try rewrite !to_console_app).
  destruct (stdin w); apply HQ.
Qed.

Lemma dispatch_add : dispatch py_int "1" = add_entry.
Proof. reflexivity. Qed.
Lemma dispatch_measure : dispatch py_int "2" = measure_entry.
Proof. reflexivity. Qed.
Lemma dispatch_update : dispatch py_int "3" = update_entry py_int.
Proof. reflexivity. Qed.
Lemma dispatch_delete : dispatch py_int "4" = delete_entry py_int.
Proof. reflexivity. Qed.
Lemma dispatch_show : dispatch py_int "5" = show_entry.
Proof. reflexivity. Qed.
Lemma dispatch_quit : dispatch py_int "6" = quit_entry.
Proof. reflexivity. Qed.

Lemma dispatch_unknown (choice : string) :
  choice ∉ ["1"; "2"; "3"; "4"; "5"; "6"] → dispatch py_int choice = unknown_entry.
Proof.
  intros Hc. unfold dispatch.
  repeat (rewrite bool_decide_eq_false_2; [|intros ->; apply Hc; set_solver]).
  done.
Qed.

Lemma dispatch_cases (choice : string) (P : IO control → Prop) :
  P add_entry → P measure_entry → P (update_entry py_int) →
  P (delete_entry py_int) → P show_entry → (choice = "6" → P quit_entry) →
  P unknown_entry →
  P (dispatch py_int choice).
Proof. intros. unfold dispatch. repeat case_bool_decide; auto. Qed.
End menu_rules.

Ltac menu_step :=
  world_simpl;
  lazymatch goal with
  | |- runs (int_input _ _) _ _ => apply runs_int_input; world_simpl
  | |- _ => io_step
  end.

(** ** The menu: what every pass preserves *)

Lemma suffix_here {A} (l : list A) : l `suffix_of` l.
Proof. by exists []. Qed.

Lemma well_typed_built (s : string) (n : Z) (d : datetime) :
  well_typed (LatencyTestRecord.mk (PStr s) (PInt n) (PDatetime d)).
Proof. repeat split; eexists; reflexivity. Qed.

Ltac solve_evolves :=
  unfold evolves, store_sound; world_simpl;
  split_and!;
  [ repeat first [apply suffix_here | apply suffix_cons_r]
  | first [reflexivity | apply insert_subseteq, not_elem_of_dom, is_fresh]
  | let Hs := fresh "Hs" in
    intros Hs; cbn [DataStorage.records] in *;
    first [ exact Hs
          | apply sound_alloc; exact Hs
          | apply sound_add; [exact Hs|apply well_typed_built]
          | apply sound_modify; [exact Hs|apply well_typed_built]
          | apply sound_remove; exact Hs ]
  | reflexivity
  | reflexivity ].

Section menu_invariant.
Context (py_int : string → option Z).
Import DataStorage.
Implicit Types (w : world).

(** An entry other than 6 lets the loop go on, unless the input ran
    out while it was reading. *)
Local Abbreviation passes w :=
  (λ (r : io_exn + control) w',
     evolves w w' ∧ (r = inl EOFError ∧ stdin w' = [] ∨ r = inr Continue)).

Local Ltac finish := world_simpl; split; [solve_evolves|eauto].
Local Ltac run := repeat menu_step.

Lemma add_entry_evolves w : runs add_entry w (passes w).
Proof.
  destruct w as [sin sout objs [l] clk cr ent dr].
  unfold add_entry. run. destruct sin as [|src rest]; [finish|].
  run. rewrite add_record_run. cbn [result final trace records].
  run. finish.
Qed.

Lemma measure_entry_evolves w : runs measure_entry w (passes w).
Proof.
  destruct w as [sin sout objs [l] clk cr ent dr].
  unfold measure_entry. run. destruct sin as [|src rest]; [finish|].
  run. finish.
Qed.

Lemma update_entry_evolves w : runs (update_entry py_int) w (passes w).
Proof.
  destruct w as [sin sout objs [l] clk cr ent dr].
  unfold update_entry. run. cbn [records].
  destruct l as [|x0 l0]; [run; finish|].
  set (l := x0 :: l0). run.
  destruct sin as [|i rest]; [finish|].
  destruct (py_int i) as [idx|]; [|run; finish].
  run. destruct rest as [|src rest]; [finish|].
  run. destruct rest as [|lat rest]; [finish|].
  destruct (py_int lat) as [latency|]; [|run; finish].
  run.
  destruct (decide (0 ≤ idx < PyList.len l)%Z) as [Hin|Hout].
  - rewrite modify_record_hit by done. cbn [result final trace records].
    run. finish.
  - rewrite modify_record_miss by done. cbn [result final trace records].
    run. finish.
Qed.

Lemma delete_entry_evolves w : runs (delete_entry py_int) w (passes w).
Proof.
  destruct w as [sin sout objs [l] clk cr ent dr].
  unfold delete_entry. run. cbn [records].
  destruct l as [|x0 l0]; [run; finish|].
  set (l := x0 :: l0). run.
  destruct sin as [|i rest]; [finish|].
  destruct (py_int i) as [idx|]; [|run; finish].
  run.
  destruct (decide (0 ≤ idx < PyList.len l)%Z) as [Hin|Hout].
  - rewrite remove_record_hit by done. cbn [result final trace records].
    run. finish.
  - rewrite remove_record_miss by done. cbn [result final trace records].
    run. finish.
Qed.

Lemma show_entry_evolves w : runs show_entry w (passes w).
Proof.
  destruct w as [sin sout objs [l] clk cr ent dr].
  unfold show_entry. run. rewrite display_all_run.
  cbn [result final trace records]. run. finish.
Qed.

Lemma quit_entry_evolves w :
  runs quit_entry w (λ r w', evolves w w' ∧ r = inr Break ∧ stdin w' = stdin w).
Proof.
  destruct w as [sin sout objs [l] clk cr ent dr].
  unfold quit_entry. run. finish.
Qed.

Lemma unknown_entry_evolves w : runs unknown_entry w (passes w).
Proof.
  destruct w as [sin sout objs [l] clk cr ent dr].
  unfold unknown_entry. run. finish.
Qed.
End menu_invariant.

(** ** The menu loop *)

Section menu_loop.
Context (py_int : string → option Z).
Implicit Types (w : world).

Lemma runs_mono {A} (m : IO A) w (Q Q' : io_exn + A → world → Prop) :
  runs m w Q → (∀ r w', Q r w' → Q' r w') → runs m w Q'.
Proof. unfold runs. auto. Qed.

Lemma evolves_trans w1 w2 w3 : evolves w1 w2 → evolves w2 w3 → evolves w1 w3.
Proof.
  intros (Hin1 & Hob1 & Hs1 & Hc1 & He1) (Hin2 & Hob2 & Hs2 & Hc2 & He2).
  split_and!; [by etrans|by etrans|auto|congruence|congruence].
Qed.

Lemma evolves_choice_read (out : list console) (choice : string) rest w :
  stdin w = choice :: rest → evolves w (set_stdin rest (to_console out w)).
Proof.
  intros Hin. unfold evolves, store_sound. world_simpl. rewrite Hin.
  split_and!; [apply suffix_cons_r, suffix_here|done..].
Qed.

Lemma menu_loop_S (fuel : nat) :
  menu_loop py_int (S fuel) =
  iteration py_int ≫= λ c, match c with
                           | Continue => menu_loop py_int fuel
                           | Break => mret (Some ())
                           end.
Proof. done. Qed.

Lemma runs_main_menu w Q :
  runs (menu_loop py_int (S (length (stdin w))))
    (set_storage DataStorage.__init__ w) Q →
  runs (main_menu py_int) w Q.
Proof. done. Qed.

Lemma dispatch_evolves (choice : string) w :
  runs (dispatch py_int choice) w (λ r w',
    evolves w w' ∧
    (r = inl EOFError ∧ stdin w' = [] ∨ r = inr Continue ∨
     r = inr Break ∧ choice = "6" ∧ stdin w' = stdin w)).
Proof.
  apply (dispatch_cases py_int choice (λ m, runs m w _)).
  - eapply runs_mono; [apply add_entry_evolves|]. intros r w' [? [?|?]]; auto.
  - eapply runs_mono; [apply measure_entry_evolves|]. intros r w' [? [?|?]]; auto.
  - eapply runs_mono; [apply update_entry_evolves|]. intros r w' [? [?|?]]; auto.
  - eapply runs_mono; [apply delete_entry_evolves|]. intros r w' [? [?|?]]; auto.
  - eapply runs_mono; [apply show_entry_evolves|]. intros r w' [? [?|?]]; auto.
  - intros ->. eapply runs_mono; [apply quit_entry_evolves|].
    intros r w' (? & ? & ?). split; [done|]. right; right. auto.
  - eapply runs_mono; [apply unknown_entry_evolves|]. intros r w' [? [?|?]]; auto.
Qed.

(** One pass: the input ran out, or the pass went on after reading at
    least one line, or it read the line 6 as the choice, nothing after
    it, and broke out of the loop. *)
Lemma iteration_evolves w :
  runs (iteration py_int) w (λ r w',
    evolves w w' ∧
    (r = inl EOFError ∧ stdin w' = [] ∨
     r = inr Continue ∧ length (stdin w') < length (stdin w) ∨
     r = inr Break ∧ stdin w = "6" :: stdin w')).
Proof.
  apply runs_iteration. intros out. destruct (stdin w) as [|choice rest] eqn:Hin.
  - split; [|left; split; [done|]; world_simpl; done].
    unfold evolves, store_sound. world_simpl. rewrite Hin.
    split_and!; [apply suffix_here|done..].
  - eapply runs_mono; [apply dispatch_evolves|].
    intros r w' [Hev Hr]. cbv beta.
    pose proof (evolves_choice_read out choice rest w Hin) as Hfirst.
    split; [by eapply evolves_trans|].
    destruct Hr as [[-> Hnil]|[->|(-> & -> & Hsame)]].
    + by left.
    + right; left. split; [done|].
      destruct Hev as [Hsuf _]. apply suffix_length in Hsuf.
      revert Hsuf. world_simpl. simpl. lia.
    + right; right. split; [done|]. revert Hsame. world_simpl. by intros ->.
Qed.

Lemma menu_loop_step (fuel : nat) w :
  menu_loop py_int (S fuel) w =
  match iteration py_int w with
  | (inl e, w1) => (inl e, w1)
  | (inr Continue, w1) => menu_loop py_int fuel w1
  | (inr Break, w1) => (inr (Some ()), w1)
  end.
Proof.
  rewrite menu_loop_S. unfold mbind, IO_bind.
  by destruct (iteration py_int w) as [[e|[|]] w1].
Qed.

(** The loop from any world, with fuel to spare: it raises [EOFError]
    with the input used up, or it returns, and then some number [n] of
    passes went on, after which the next line to read as a choice was
    the line 6, the last line read. *)
Lemma menu_loop_ends (fuel : nat) w :
  length (stdin w) < fuel →
  evolves w (menu_loop py_int fuel w).2 ∧
  ((menu_loop py_int fuel w).1 = inl EOFError ∧
   stdin (menu_loop py_int fuel w).2 = [] ∨
   (menu_loop py_int fuel w).1 = inr (Some ()) ∧
   ∃ (n : nat) (w1 : world),
     menu_loop py_int n w = (inr None, w1) ∧
     stdin w1 = "6" :: stdin (menu_loop py_int fuel w).2).
Proof.
  revert w. induction fuel as [|fuel IH]; intros w Hfuel; [lia|].
  pose proof (iteration_evolves w) as Hit. unfold runs in Hit.
  pose proof (λ k, menu_loop_step k w) as Hstep.
  rewrite Hstep.
  destruct (iteration py_int w) as [[e|[|]] w1] eqn:Erun;
    cbn [fst snd] in *; destruct Hit as [Hev Hr].
  - destruct Hr as [[[= ->] Hnil]|[[? _]|[? _]]]; [|done..]. split; [done|by left].
  - destruct Hr as [[? _]|[[_ Hlen]|[? _]]]; [done| |done].
    destruct (IH w1) as [Hev' Hr']; [lia|].
    split; [by eapply evolves_trans|].
    destruct Hr' as [?|(Hret & n & w2 & Hn & Hsix)]; [by left|right].
    split; [done|]. exists (S n), w2. split; [|done].
    by rewrite Hstep.
  - destruct Hr as [[? _]|[[? _]|[_ Hsix]]]; [done..|].
    split; [done|right]. split; [done|]. by exists 0, w.
Qed.

(** The loop with whatever fuel: the world only evolves. *)
Lemma menu_loop_evolves (fuel : nat) w :
  evolves w (menu_loop py_int fuel w).2.
Proof.
  revert w. induction fuel as [|fuel IH]; intros w.
  - unfold evolves. cbn [menu_loop]. split_and!; [apply suffix_here|done..].
  - pose proof (iteration_evolves w) as [Hev _]. unfold runs in Hev.
    rewrite menu_loop_step.
    destruct (iteration py_int w) as [[e|[|]] w1]; cbn [fst snd] in *; [done| |done].
    by eapply evolves_trans.
Qed.

(** One more pass allowed never loses or changes an object. *)
Lemma menu_loop_objects (fuel : nat) w :
  objects (menu_loop py_int fuel w).2 ⊆ objects (menu_loop py_int (S fuel) w).2.
Proof.
  revert w. induction fuel as [|fuel IH]; intros w.
  - destruct (menu_loop_evolves 1 w) as (_ & Hsub & _). exact Hsub.
  - pose proof (menu_loop_step (S fuel) w) as E2.
    pose proof (menu_loop_step fuel w) as E1.
    destruct (iteration py_int w) as [[e|[|]] w1].
    + by rewrite E1, E2.
    + rewrite E1, E2. apply IH.
    + by rewrite E1, E2.
Qed.

Lemma main_menu_evolves w :
  evolves (set_storage DataStorage.__init__ w) (main_menu py_int w).2.
Proof. apply menu_loop_evolves. Qed.

(** X10.  [main_menu] always comes to an end, and in one of two ways.
    Either it returns: then some number of passes of the loop went on,
    the line 6 was the next to be read as a choice, and it is the last
    line read.  Or [EOFError] leaves it: then the input is used up, which
    is what happens whenever no line of the input is 6.  No [ValueError]
    and no [IndexError] leaves it, whatever is typed, and what it has
    read is a prefix of the input. *)
Theorem main_menu_ends w :
  runs (main_menu py_int) w (λ r w',
    (r = inr (Some ()) ∧
     (∃ (n : nat) (w1 : world),
        menu_loop py_int n (set_storage DataStorage.__init__ w) = (inr None, w1) ∧
        stdin w1 = "6" :: stdin w') ∧
     (∃ read, stdin w = read ++ "6" :: stdin w') ∨
     r = inl EOFError ∧ stdin w' = []) ∧
    ("6" ∉ stdin w → r = inl EOFError) ∧
    stdin w' `suffix_of` stdin w).
Proof.
  unfold runs, main_menu.
  destruct (menu_loop_ends (S (length (stdin w)))
              (set_storage DataStorage.__init__ w)) as [Hev Hr];
    [world_simpl; lia|].
  set (out := menu_loop py_int _ _) in *.
  assert (out.1 = inr (Some ()) →
          (∃ (n : nat) (w1 : world),
             menu_loop py_int n (set_storage DataStorage.__init__ w) = (inr None, w1) ∧
             stdin w1 = "6" :: stdin out.2) →
          ∃ read, stdin w = read ++ "6" :: stdin out.2) as Hread.
  { intros _ (n & w1 & Hn & Hsix).
    pose proof (menu_loop_evolves n (set_storage DataStorage.__init__ w)) as [[k Hk] _].
    rewrite Hn in Hk. cbn [snd] in Hk. revert Hk. world_simpl.
    rewrite Hsix. eauto. }
  split_and!.
  - destruct Hr as [?|[Hret Hsix]]; [by right|left]. auto.
  - intros Hno. destruct Hr as [[? _]|[Hret Hsix]]; [done|].
    destruct (Hread Hret Hsix) as [read Hin]. exfalso. apply Hno.
    rewrite Hin. apply elem_of_app. right. by left.
  - destruct Hev as [Hsuf _]. revert Hsuf. by world_simpl.
Qed.

(** X11.  Whatever is typed, when [main_menu] ends every entry of the
    store refers to a record object that exists, with a string as
    source, an integer as latency and a [datetime] as time, and no
    object is in the store twice. *)
Theorem main_menu_store_sound w :
  runs (main_menu py_int) w (λ _ w', store_sound w').
Proof.
  unfold runs. destruct (main_menu_evolves w) as (_ & _ & Hs & _). apply Hs.
  split; [by intros r' ?%elem_of_nil|apply NoDup_nil_2].
Qed.

(** X12.  No pass of the menu loop changes or discards a record
    object, whatever the store and the heap are when the pass begins:
    an object that exists before the pass, one the store refers to
    included, exists with the same attributes after it.  So along a run
    of the loop the heap after [n] passes is contained in the heap
    after [n + 1], and the heap [main_menu] starts with in the heap it
    ends with. *)
Theorem objects_never_change w (l : loc) (o : LatencyTestRecord.t) :
  runs (iteration py_int) w (λ _ w',
    objects w !! l = Some o → objects w' !! l = Some o) ∧
  (∀ n : nat,
     objects (menu_loop py_int n w).2 !! l = Some o →
     objects (menu_loop py_int (S n) w).2 !! l = Some o) ∧
  runs (main_menu py_int) w (λ _ w',
    objects w !! l = Some o → objects w' !! l = Some o).
Proof.
  split_and!.
  - eapply runs_mono; [apply iteration_evolves|].
    intros r w' [(_ & Hsub & _) _] Hl. by eapply lookup_weaken.
  - intros n Hl. eapply lookup_weaken; [done|apply menu_loop_objects].
  - unfold runs. destruct (main_menu_evolves w) as (_ & Hsub & _).
    intros Hl. by eapply lookup_weaken.
Qed.
End menu_loop.

(** ** The menu, choice by choice *)

Section menu_choices.
Context (py_int : string → option Z).
Import DataStorage.
Implicit Types (w : world) (rest : list string).

Local Ltac run := repeat menu_step.
Local Ltac enter :=
  lazymatch goal with
  | |- runs _ ?w _ =>
      destruct w as [sin sout objs [l] clk cr ent dr];
      cbn [stdin storage records] in *; subst;
      apply runs_iteration; intros out; world_simpl
  end.

(** X13.  Choice 1 reads one more line, the source, and appends to the
    store a record object made for the occasion: its source is that
    line, its latency an integer from 1 to 100, its time the clock
    reading. *)
Theorem choice_add_appends w (src : string) rest :
  stdin w = "1" :: src :: rest →
  runs (iteration py_int) w (λ r w',
    r = inr Continue ∧ stdin w' = rest ∧
    records (storage w') = records (storage w) ++ [fresh (dom (objects w))] ∧
    ∃ n, (1 ≤ n ≤ 100)%Z ∧
      objects w' =
        <[fresh (dom (objects w)) :=
            LatencyTestRecord.mk (PStr src) (PInt n)
              (PDatetime (clock w (clock_reads w)))]> (objects w)).
Proof.
  intros Hin. enter. rewrite dispatch_add. unfold add_entry. run.
  rewrite add_record_run. cbn [result final trace records]. run.
  split_and!; [done..|]. eauto.
Qed.

(** X14.  Choice 2 measures without storing: it reads the source line
    and creates a record object, and the store is what it was. *)
Theorem choice_measure_stores_nothing w (src : string) rest :
  stdin w = "2" :: src :: rest →
  runs (iteration py_int) w (λ r w',
    r = inr Continue ∧ stdin w' = rest ∧ storage w' = storage w ∧
    ∃ n, (1 ≤ n ≤ 100)%Z ∧
      objects w' =
        <[fresh (dom (objects w)) :=
            LatencyTestRecord.mk (PStr src) (PInt n)
              (PDatetime (clock w (clock_reads w)))]> (objects w)).
Proof.
  intros Hin. enter. rewrite dispatch_measure. unfold measure_entry. run.
  split_and!; [done..|]. eauto.
Qed.

(** X15.  With an empty store, choices 3 and 4 ask for nothing: no
    further line is read, no object is created, the store stays empty
    and the loop goes on. *)
Theorem choice_on_empty_store w (choice : string) rest :
  records (storage w) = [] → stdin w = choice :: rest →
  choice = "3" ∨ choice = "4" →
  runs (iteration py_int) w (λ r w',
    r = inr Continue ∧ stdin w' = rest ∧ storage w' = storage w ∧
    objects w' = objects w ∧ clock_reads w' = clock_reads w).
Proof.
  intros Hempty Hin Hchoice. enter.
  destruct Hchoice as [->| ->].
  - rewrite dispatch_update. unfold update_entry. run. cbn [records]. run. done.
  - rewrite dispatch_delete. unfold delete_entry. run. cbn [records]. run. done.
Qed.

(** X16.  In an update, an index that [int] rejects ends the entry at
    once: the source and latency are not asked for, nothing is created,
    the store is what it was, and the last line printed is the
    invalid-input message. *)
Theorem choice_update_bad_index w (i : string) rest :
  records (storage w) ≠ [] → stdin w = "3" :: i :: rest → py_int i = None →
  runs (iteration py_int) w (λ r w',
    r = inr Continue ∧ stdin w' = rest ∧ storage w' = storage w ∧
    objects w' = objects w ∧
    last (stdout w') = Some (Said
      [Lit Fore.RED;
       Lit "Error: Invalid input. Please enter numeric values for index and latency.";
       Lit Style.RESET_ALL])).
Proof.
  intros Hne Hin Hi. enter. rewrite dispatch_update. unfold update_entry.
  run. cbn [records]. destruct l as [|x0 l0]; [done|]. run. rewrite Hi. run.
  split_and!; [done..|]. apply last_snoc.
Qed.

(** X17.  In an update, a latency that [int] rejects leaves the store
    and the heap as they were, after the three lines have been read. *)
Theorem choice_update_bad_latency w (i src lat : string) (idx : Z) rest :
  records (storage w) ≠ [] → stdin w = "3" :: i :: src :: lat :: rest →
  py_int i = Some idx → py_int lat = None →
  runs (iteration py_int) w (λ r w',
    r = inr Continue ∧ stdin w' = rest ∧ storage w' = storage w ∧
    objects w' = objects w ∧
    last (stdout w') = Some (Said
      [Lit Fore.RED;
       Lit "Error: Invalid input. Please enter numeric values for index and latency.";
       Lit Style.RESET_ALL])).
Proof.
  intros Hne Hin Hi Hlat. enter. rewrite dispatch_update. unfold update_entry.
  run. cbn [records]. destruct l as [|x0 l0]; [done|]. run. rewrite Hi. run. rewrite Hlat. run.
  split_and!; [done..|]. apply last_snoc.
Qed.

(** X18.  In an update, an index outside the store (negative ones
    included) is found out only after the source and latency have been
    read and the new record object has been created: the store is what
    it was, the object stays behind in the heap, and the last line
    printed is the invalid-index message. *)
Theorem choice_update_out_of_range w (i src lat : string) (idx n : Z) rest :
  records (storage w) ≠ [] → stdin w = "3" :: i :: src :: lat :: rest →
  py_int i = Some idx → py_int lat = Some n →
  ¬ (0 ≤ idx < PyList.len (records (storage w)))%Z →
  runs (iteration py_int) w (λ r w',
    r = inr Continue ∧ stdin w' = rest ∧ storage w' = storage w ∧
    objects w' =
      <[fresh (dom (objects w)) :=
          LatencyTestRecord.mk (PStr src) (PInt n)
            (PDatetime (clock w (clock_reads w)))]> (objects w) ∧
    last (stdout w') = Some (Said
      [Lit Fore.RED; Lit "Error: Invalid index."; Lit Style.RESET_ALL])).
Proof.
  intros Hne Hin Hi Hlat Hout. enter. rewrite dispatch_update.
  unfold update_entry. run. cbn [records]. destruct l as [|x0 l0]; [done|].
  run. rewrite Hi. run. rewrite Hlat. run.
  rewrite modify_record_miss by done. cbn [result final trace]. run.
  split_and!; [done..|]. apply last_snoc.
Qed.

(** X19.  In an update with an index inside the store, the entry at
    that index becomes a new record object carrying the source typed
    and the latency typed, whatever integer that is (there is no check
    of its sign or size); the other entries and the length of the store
    are what they were. *)
Theorem choice_update_in_range w (i src lat : string) (idx n : Z) rest :
  stdin w = "3" :: i :: src :: lat :: rest →
  py_int i = Some idx → py_int lat = Some n →
  (0 ≤ idx < PyList.len (records (storage w)))%Z →
  runs (iteration py_int) w (λ r w',
    r = inr Continue ∧ stdin w' = rest ∧
    records (storage w') =
      <[Z.to_nat idx := fresh (dom (objects w))]> (records (storage w)) ∧
    objects w' =
      <[fresh (dom (objects w)) :=
          LatencyTestRecord.mk (PStr src) (PInt n)
            (PDatetime (clock w (clock_reads w)))]> (objects w)).
Proof.
  intros Hin Hi Hlat Hidx. enter. rewrite dispatch_update.
  unfold update_entry. run. cbn [records].
  destruct l as [|x0 l0]; [unfold PyList.len in Hidx; simpl in Hidx; lia|].
  run. rewrite Hi. run. rewrite Hlat. run.
  rewrite modify_record_hit by done. cbn [result final trace records]. run.
  done.
Qed.

(** X20.  Choice 4 on a store that is not empty reads one line and
    creates nothing.  If the line is an index inside the store, that
    entry is deleted; if it is an integer outside it (a negative one
    included) or no integer at all, the store is what it was. *)
Theorem choice_delete w (i : string) rest :
  records (storage w) ≠ [] → stdin w = "4" :: i :: rest →
  runs (iteration py_int) w (λ r w',
    r = inr Continue ∧ stdin w' = rest ∧ objects w' = objects w ∧
    records (storage w') =
      match py_int i with
      | Some idx =>
          if bool_decide (0 ≤ idx < PyList.len (records (storage w)))%Z
          then delete (Z.to_nat idx) (records (storage w))
          else records (storage w)
      | None => records (storage w)
      end).
Proof.
  intros Hne Hin. enter. rewrite dispatch_delete. unfold delete_entry.
  run. cbn [records]. destruct l as [|x0 l0]; [done|]. run.
  destruct (py_int i) as [idx|]; [|run; done].
  run. case_bool_decide.
  - rewrite remove_record_hit by done. cbn [result final trace records]. run.
    done.
  - rewrite remove_record_miss by done. cbn [result final trace records]. run.
    done.
Qed.

(** X21.  Any line that is not exactly one of 1 to 6 (a choice with a
    space around it, say) changes nothing: the line is consumed, the
    store and the heap are what they were, and the loop goes on. *)
Theorem choice_unknown w (choice : string) rest :
  stdin w = choice :: rest → choice ∉ ["1"; "2"; "3"; "4"; "5"; "6"] →
  runs (iteration py_int) w (λ r w',
    r = inr Continue ∧ stdin w' = rest ∧ storage w' = storage w ∧
    objects w' = objects w).
Proof.
  intros Hin Hc. enter. rewrite dispatch_unknown by done.
  unfold unknown_entry. run. done.
Qed.

(** X22.  Choice 5 shows the store and leaves it alone; on an empty
    store the last line printed is the no-records line. *)
Theorem choice_show w rest :
  stdin w = "5" :: rest →
  runs (iteration py_int) w (λ r w',
    r = inr Continue ∧ stdin w' = rest ∧ storage w' = storage w ∧
    objects w' = objects w ∧
    (records (storage w) = [] →
     last (stdout w') = Some (Said no_records_line))).
Proof.
  intros Hin. enter. rewrite dispatch_show. unfold show_entry. run.
  rewrite display_all_run. cbn [result final trace records]. run.
  split_and!; [done..|]. intros ->. cbn [said omap list_omap].
  apply last_snoc.
Qed.

(** X23.  If the first line typed is 6, [main_menu] returns at once:
    nothing more is read, no object is created, and its store is
    empty. *)
Theorem quit_at_once w rest :
  stdin w = "6" :: rest →
  runs (main_menu py_int) w (λ r w',
    r = inr (Some ()) ∧ stdin w' = rest ∧ storage w' = __init__ ∧
    objects w' = objects w).
Proof.
  intros Hin. apply runs_main_menu. rewrite menu_loop_S. apply runs_bind.
  destruct w as [sin sout objs [l] clk cr ent dr].
  cbn [stdin] in Hin. subst. apply runs_iteration. intros out. world_simpl.
  rewrite dispatch_quit. unfold quit_entry. run. done.
Qed.
End menu_choices.

(** ** The choices at concrete inputs *)

Section menu_examples.
Import DataStorage.

Local Ltac bounds := unfold PyList.len; simpl; lia.

(** The pass ends normally with exactly the lines [rest] left to read. *)
Local Abbreviation goes_on rest :=
  (λ (r : io_exn + control) (w' : world), r = inr Continue ∧ stdin w' = rest).

Lemma choice_add_appends_witness :
  stdin (session ["1"; "NYC"; "6"]) = "1" :: "NYC" :: ["6"] ∧
  runs (iteration signed_decimal) (session ["1"; "NYC"; "6"]) (goes_on ["6"]).
Proof.
  split; [done|]. eapply runs_mono.
  - by apply (choice_add_appends signed_decimal (session ["1"; "NYC"; "6"]) "NYC" ["6"]).
  - intros r w' H. split; apply H.
Defined.

Lemma choice_measure_stores_nothing_witness :
  stdin (session ["2"; "NYC"; "6"]) = "2" :: "NYC" :: ["6"] ∧
  runs (iteration signed_decimal) (session ["2"; "NYC"; "6"])
    (λ r w', r = inr Continue ∧ storage w' = __init__).
Proof.
  split; [done|]. eapply runs_mono.
  - by apply (choice_measure_stores_nothing signed_decimal
                (session ["2"; "NYC"; "6"]) "NYC" ["6"]).
  - intros r w' H. split; apply H.
Defined.

Lemma choice_on_empty_store_witness :
  records (storage (session ["3"; "6"])) = [] ∧
  runs (iteration signed_decimal) (session ["3"; "6"]) (goes_on ["6"]).
Proof.
  split; [done|]. eapply runs_mono.
  - apply (choice_on_empty_store signed_decimal (session ["3"; "6"]) "3" ["6"]);
      [done|done|by left].
  - intros r w' H. split; apply H.
Defined.

Lemma choice_update_bad_index_witness :
  signed_decimal "abc" = None ∧
  runs (iteration signed_decimal) (desk ["3"; "abc"; "6"]) (goes_on ["6"]).
Proof.
  split; [done|]. eapply runs_mono.
  - by apply (choice_update_bad_index signed_decimal (desk ["3"; "abc"; "6"])
                "abc" ["6"]).
  - intros r w' H. split; apply H.
Defined.

Lemma choice_update_bad_latency_witness :
  signed_decimal "0" = Some 0%Z ∧ signed_decimal "fast" = None ∧
  runs (iteration signed_decimal) (desk ["3"; "0"; "SF"; "fast"; "6"])
    (λ r w', r = inr Continue ∧ storage w' = mk [0; 1]).
Proof.
  split_and!; [done..|]. eapply runs_mono.
  - by apply (choice_update_bad_latency signed_decimal
                (desk ["3"; "0"; "SF"; "fast"; "6"]) "0" "SF" "fast" 0 ["6"]).
  - intros r w' H. split; apply H.
Defined.

Lemma choice_update_out_of_range_witness :
  signed_decimal "-1" = Some (-1)%Z ∧ signed_decimal "10" = Some 10%Z ∧
  runs (iteration signed_decimal) (desk ["3"; "-1"; "SF"; "10"; "6"])
    (λ r w', r = inr Continue ∧ storage w' = mk [0; 1]).
Proof.
  split_and!; [done..|]. eapply runs_mono.
  - apply (choice_update_out_of_range signed_decimal
             (desk ["3"; "-1"; "SF"; "10"; "6"]) "-1" "SF" "10" (-1) 10 ["6"]);
      [done..|bounds].
  - intros r w' H. split; apply H.
Defined.

Lemma choice_update_in_range_witness :
  signed_decimal "1" = Some 1%Z ∧ signed_decimal "-10" = Some (-10)%Z ∧
  runs (iteration signed_decimal) (desk ["3"; "1"; "SF"; "-10"; "6"]) (goes_on ["6"]).
Proof.
  split_and!; [done..|]. eapply runs_mono.
  - apply (choice_update_in_range signed_decimal
             (desk ["3"; "1"; "SF"; "-10"; "6"]) "1" "SF" "-10" 1 (-10) ["6"]);
      [done..|bounds].
  - intros r w' H. split; apply H.
Defined.

Lemma choice_delete_witness :
  records (storage (desk ["4"; "0"; "6"])) ≠ [] ∧
  runs (iteration signed_decimal) (desk ["4"; "0"; "6"])
    (λ r w', r = inr Continue ∧ records (storage w') = [1]).
Proof.
  split; [done|]. eapply runs_mono.
  - by apply (choice_delete signed_decimal (desk ["4"; "0"; "6"]) "0" ["6"]).
  - intros r w' (Hr & _ & _ & Hrec). split; [done|]. by rewrite Hrec.
Defined.

Lemma choice_unknown_witness :
(" 1" ∉ ["1"; "2"; "3"; "4"; "5"; "6"]) ∧
  runs (iteration signed_decimal) (session [" 1"; "6"]) (goes_on ["6"]).
Proof.
  assert (" 1" ∉ ["1"; "2"; "3"; "4"; "5"; "6"]) as Hc
    by (intros Hin; repeat (apply elem_of_cons in Hin as [[=]|Hin]);
        by apply elem_of_nil in Hin).
  split; [done|]. eapply runs_mono.
  - by apply (choice_unknown signed_decimal (session [" 1"; "6"]) " 1" ["6"]).
  - intros r w' H. split; apply H.
Defined.

Lemma choice_show_witness :
  stdin (session ["5"; "6"]) = "5" :: ["6"] ∧
  runs (iteration signed_decimal) (session ["5"; "6"])
    (λ r w', r = inr Continue ∧ last (stdout w') = Some (Said no_records_line)).
Proof.
  split; [done|]. eapply runs_mono.
  - by apply (choice_show signed_decimal (session ["5"; "6"]) ["6"]).
  - intros r w' (Hr & _ & _ & _ & Hlast). split; [done|]. by apply Hlast.
Defined.

Lemma quit_at_once_witness :
  stdin (session ["6"; "1"]) = "6" :: ["1"] ∧
  runs (main_menu signed_decimal) (session ["6"; "1"])
    (λ r w', r = inr (Some ()) ∧ stdin w' = ["1"]).
Proof.
  split; [done|]. eapply runs_mono.
  - by apply (quit_at_once signed_decimal (session ["6"; "1"]) ["1"]).
  - intros r w' H. split; apply H.
Defined.
End menu_examples.
